(** * Daikin S21 serial driver: framing state machine and session scheduler

    A shallow embedding of [components/daikin_s21/s21.cpp].

    Conventions of the embedding.
    - A [uint8_t], a [char] and every other fixed-width integer is a [Z];
      the wrap-around of each conversion is written out ([uint8], [int16],
      [uint32]).
    - A C string ([const char *]) is the [string] of its characters before
      the terminating NUL, so [strlen] is [String.length].
    - [std::vector<uint8_t>] is a [list Z]; a vector iterator is the index
      it points at, and [end()] is the length of the vector.
    - The two UARTs are the list of bytes written so far ([tx_uart]) and the
      list of received bytes not yet read ([rx_uart]).
    - [millis()] is an explicit argument [now].
    - Operations whose C++ behaviour is undefined on some input (reading
      [response[size-1]] of an empty vector, dereferencing [end()], reading
      an element of a local array that was never written) return [None]
      there.
    - Logging ([ESP_LOG*]) has no effect on the state and is left out.
    - The header s21.h is not part of the sources at hand.  Its constants
      are variables of the section [Driver]; the sensor fields it declares
      ([temp_inside], [fan_rpm], ...) hold the value of the expression
      assigned to them, before any narrowing to the declared type. *)

From Stdlib Require Import ZArith String Ascii List Bool Lia.
Import ListNotations.
Open Scope Z_scope.

(** ** Fixed-width arithmetic *)

Definition uint8 (z : Z) : Z := z mod 256.
Definition uint32 (z : Z) : Z := z mod 4294967296.
Definition int16 (z : Z) : Z := (z + 32768) mod 65536 - 32768.

(** [std::accumulate(first, last, init)]: the accumulator has the type of
    [init], so every partial sum is converted back to that type ([wrap]). *)
Definition accumulate (wrap : Z -> Z) (l : list Z) (init : Z) : Z :=
  fold_left (fun acc b => wrap (acc + b)) l init.

(** ** Characters and C strings *)

Definition ch (c : ascii) : Z := Z.of_N (N_of_ascii c).

Definition c_str (s : string) : list Z := map ch (list_ascii_of_string s).

Definition strlen (s : string) : nat := String.length s.

(** ** Protocol constants ([#define]s of s21.cpp) *)

Definition STX : Z := 2.
Definition ETX : Z := 3.
Definition ENQ : Z := 5.
Definition ACK : Z := 6.
Definition NAK : Z := 21.

(** Modelled from the spec: [S21_PAYLOAD_SIZE] is declared in s21.h, which is
    not part of the sources at hand.  The spec fixes the payload of a frame
    at 4 bytes, and [tx_next] fills exactly the indices 0..3 of a
    [std::array<char, S21_PAYLOAD_SIZE>]. *)
Definition S21_PAYLOAD_SIZE : nat := 4.

(** ** Numeric codecs *)

(** [bytes_to_num(bytes, len)].  [bytes] is the initialised part of the
    buffer the pointer refers to; [val] is an [int16_t]. *)
Definition bytes_to_num (bytes : list Z) (len : nat) : option Z :=
  match nth_error bytes 0, nth_error bytes 1, nth_error bytes 2 with
  | Some b0, Some b1, Some b2 =>
      let val := int16 (b0 - ch "0") in
      let val := int16 (val + (b1 - ch "0") * 10) in
      let val := int16 (val + (b2 - ch "0") * 100) in
      if (3 <? len)%nat then
        match nth_error bytes 3 with
        | Some b3 => Some (if b3 =? ch "-" then int16 (val * -1) else val)
        | None => None
        end
      else Some val
  | _, _, _ => None
  end.

Definition temp_bytes_to_c10 (bytes : list Z) : option Z := bytes_to_num bytes 4.

(** [temp_f9_byte_to_c10(bytes)] reads [*bytes] only; here it takes that byte. *)
Definition temp_f9_byte_to_c10 (byte : Z) : Z := int16 ((Z.quot byte 2 - 64) * 10).

(** [c10_to_setpoint_byte]: C's [/] truncates towards zero ([Z.quot]). *)
Definition c10_to_setpoint_byte (setpoint : Z) : Z :=
  uint8 (Z.quot (setpoint + 3) 5 + 28).

(** The encoding that [bytes_to_num] reads, following the comment
    [<ones><tens><hundreds><neg/pos>] of the source: the decimal digits of
    [|n|], least significant first, then ['-'] for a negative [n] and
    [plus] otherwise.  The driver has no encoder of its own; this one is
    the counterpart used to state the codec's inverse law. *)
Definition num_to_bytes (plus : Z) (n : Z) : list Z :=
  let m := Z.abs n in
  [ ch "0" + m mod 10;
    ch "0" + (m / 10) mod 10;
    ch "0" + (m / 100) mod 10;
    if n <? 0 then ch "-" else plus ].

(** ** FrameTransport: [DaikinSerial] *)

Module CommState.
Inductive t : Set := Idle | QueryAck | CommandAck | QueryStx | QueryEtx | Cooldown.
End CommState.

Module Result.
Inductive t : Set := Busy | Idle | Ack | Nak | Error | Timeout.
End Result.

Record DaikinSerial : Set := mkSerial {
  comm_state : CommState.t;
  cooldown_length : Z;
  last_event_time : Z;
  response : list Z;
  tx_uart : list Z;
  rx_uart : list Z
}.

Definition set_comm_state (c : CommState.t) (s : DaikinSerial) : DaikinSerial :=
  mkSerial c (cooldown_length s) (last_event_time s) (response s) (tx_uart s) (rx_uart s).

Definition set_cooldown_length (l : Z) (s : DaikinSerial) : DaikinSerial :=
  mkSerial (comm_state s) l (last_event_time s) (response s) (tx_uart s) (rx_uart s).

Definition set_last_event_time (t : Z) (s : DaikinSerial) : DaikinSerial :=
  mkSerial (comm_state s) (cooldown_length s) t (response s) (tx_uart s) (rx_uart s).

Definition set_response (r : list Z) (s : DaikinSerial) : DaikinSerial :=
  mkSerial (comm_state s) (cooldown_length s) (last_event_time s) r (tx_uart s) (rx_uart s).

Definition set_rx_uart (r : list Z) (s : DaikinSerial) : DaikinSerial :=
  mkSerial (comm_state s) (cooldown_length s) (last_event_time s) (response s) (tx_uart s) r.

(** [tx_uart->write_array]; [write_byte b] is [write_array [b]]. *)
Definition write_array (bs : list Z) (s : DaikinSerial) : DaikinSerial :=
  mkSerial (comm_state s) (cooldown_length s) (last_event_time s) (response s)
           (tx_uart s ++ bs) (rx_uart s).

Definition write_byte (b : Z) (s : DaikinSerial) : DaikinSerial := write_array [b] s.

(** [comm_state = Cooldown; cooldown_length = len;] *)
Definition enter_cooldown (len : Z) (s : DaikinSerial) : DaikinSerial :=
  set_cooldown_length len (set_comm_state CommState.Cooldown s).

(** [checksum = response[size - 1]; response.pop_back();] -- undefined on an
    empty vector. *)
Fixpoint pop_back (l : list Z) : option (list Z * Z) :=
  match l with
  | [] => None
  | x :: l' =>
      match pop_back l' with
      | None => Some ([], x)
      | Some (front, final) => Some (x :: front, final)
      end
  end.

(** The test of [handle_rx] on a complete frame. *)
Definition checksum_ok (calc_checksum checksum : Z) : bool :=
  (calc_checksum =? checksum) || ((calc_checksum =? STX) && (checksum =? ENQ)).

(** A value a [uint8_t] can hold. *)
Definition is_byte (b : Z) : Prop := 0 <= b <= 255.

(** ** Rendering bytes for the log *)

(** One upper-case hexadecimal digit, as [%X] prints it. *)
Definition hex_digit (n : Z) : Z :=
  if n <? 10 then ch "0" + n else ch "A" + (n - 10).

(** [sprintf(buf, "%02X", b)] for a byte [b]. *)
Definition sprintf_02X (b : Z) : list Z := [hex_digit (b / 16); hex_digit (b mod 16)].

(** [hex_repr(bytes, len)]: the body of the loop from index [i] on. *)
Fixpoint hex_repr_from (i : nat) (bytes : list Z) : list Z :=
  match bytes with
  | [] => []
  | b :: rest =>
      (if (0 <? i)%nat then [ch ":"] else [])
        ++ sprintf_02X b ++ hex_repr_from (S i) rest
  end.

Definition hex_repr (bytes : list Z) : list Z := hex_repr_from 0 bytes.

(** The backslash and the double quote, by their codes. *)
Definition backslash : Z := 92.
Definition double_quote : Z := 34.

(** What [str_repr] appends for one byte. *)
Definition str_repr_byte (b : Z) : list Z :=
  if b =? 7 then [backslash; ch "a"]
  else if b =? 8 then [backslash; ch "b"]
  else if b =? 9 then [backslash; ch "t"]
  else if b =? 10 then [backslash; ch "n"]
  else if b =? 11 then [backslash; ch "v"]
  else if b =? 12 then [backslash; ch "f"]
  else if b =? 13 then [backslash; ch "r"]
  else if b =? 27 then [backslash; ch "e"]
  else if b =? 34 then [backslash; double_quote]
  else if b =? 39 then [backslash; ch "'"]
  else if b =? 92 then [backslash; backslash]
  else if (b <? 32) || (127 <? b) then [backslash; ch "x"] ++ sprintf_02X b
  else [b].

Fixpoint str_repr (bytes : list Z) : list Z :=
  match bytes with
  | [] => []
  | b :: rest => str_repr_byte b ++ str_repr rest
  end.


(** ** Session data *)

(** [active] and [pending].  [DaikinClimateMode] and [DaikinFanMode] are
    declared in s21.h; the code moves them to and from wire bytes with
    [static_cast], so a mode or fan value is its underlying byte. *)
Record DaikinSettings (T : Type) : Type := mkSettings {
  power_on : bool;
  mode : Z;
  setpoint : T;
  fan : Z;
  swing_v : bool;
  swing_h : bool
}.

Arguments mkSettings {T}.
Arguments power_on {T}.
Arguments mode {T}.
Arguments setpoint {T}.
Arguments fan {T}.
Arguments swing_v {T}.
Arguments swing_h {T}.

(** The [ready] bitset, one bit per mandatory response family. *)
Record ReadyBits : Set := mkReady {
  ReadyBasic : bool;
  ReadySwing : bool;
  ReadyCompressor : bool
}.

(** [val_cache]: response code (characters before the NUL) to the payload
    last seen, as an association list. *)
Definition ValCache : Set := list (list Z * list Z).

Section Driver.

(** Constants of s21.h, which is not part of the sources at hand. *)
Variable S21_MAX_COMMAND_SIZE : nat.
Variables S21_RESPONSE_TIMEOUT S21_RESPONSE_TURNAROUND S21_ERROR_TIMEOUT : Z.

Definition handle_rx (byte : Z) (s : DaikinSerial) : option (Result.t * DaikinSerial) :=
  match comm_state s with
  | CommState.QueryAck | CommState.CommandAck =>
      if byte =? ACK then
        match comm_state s with
        | CommState.QueryAck => Some (Result.Busy, set_comm_state CommState.QueryStx s)
        | _ => Some (Result.Ack, enter_cooldown S21_RESPONSE_TURNAROUND s)
        end
      else if byte =? NAK then
        Some (Result.Nak, enter_cooldown S21_RESPONSE_TURNAROUND s)
      else
        Some (Result.Error, enter_cooldown S21_ERROR_TIMEOUT s)
  | CommState.QueryStx =>
      if byte =? STX then Some (Result.Busy, set_comm_state CommState.QueryEtx s)
      else if byte =? ACK then Some (Result.Busy, s)
      else Some (Result.Error, enter_cooldown S21_ERROR_TIMEOUT s)
  | CommState.QueryEtx =>
      if negb (byte =? ETX) then
        let s1 := set_response (response s ++ [byte]) s in
        if (S21_MAX_COMMAND_SIZE + S21_PAYLOAD_SIZE + 1 <? length (response s1))%nat
        then Some (Result.Error, enter_cooldown S21_ERROR_TIMEOUT s1)
        else Some (Result.Busy, s1)
      else
        match pop_back (response s) with
        | None => None
        | Some (body, checksum) =>
            let s1 := set_response body s in
            let calc_checksum := uint8 (accumulate uint32 body 0) in
            if checksum_ok calc_checksum checksum
            then Some (Result.Ack, enter_cooldown S21_RESPONSE_TURNAROUND (write_byte ACK s1))
            else Some (Result.Error, enter_cooldown S21_ERROR_TIMEOUT s1)
        end
  | _ => Some (Result.Busy, s)
  end.

(** The [while ((result == Busy) && rx_uart->available())] loop of [service]:
    [avail] is the unread input, which [s] holds as well. *)
Fixpoint read_available (now : Z) (avail : list Z) (s : DaikinSerial)
  : option (Result.t * DaikinSerial) :=
  match avail with
  | [] => Some (Result.Busy, s)
  | byte :: rest =>
      match handle_rx byte (set_last_event_time now (set_rx_uart rest s)) with
      | None => None
      | Some (Result.Busy, s') => read_available now rest s'
      | Some (result, s') => Some (result, s')
      end
  end.

Definition service (now : Z) (s : DaikinSerial) : option (Result.t * DaikinSerial) :=
  match comm_state s with
  | CommState.Idle => Some (Result.Idle, s)
  | CommState.Cooldown =>
      if cooldown_length s <? uint32 (now - last_event_time s)
      then Some (Result.Idle, set_comm_state CommState.Idle s)
      else Some (Result.Busy, s)
  | _ =>
      if S21_RESPONSE_TIMEOUT <? uint32 (now - last_event_time s)
      then Some (Result.Timeout, set_comm_state CommState.Idle s)
      else read_available now (rx_uart s) s
  end.

Definition flush_input (s : DaikinSerial) : DaikinSerial := set_rx_uart [] s.

(** The checksum byte [send_frame] writes. *)
Definition tx_checksum (cmd : string) (payload : option (list Z)) : Z :=
  let checksum := uint8 (accumulate uint32 (c_str cmd) 0) in
  let checksum :=
    match payload with
    | Some p => accumulate uint8 p checksum
    | None => checksum
    end in
  if checksum =? STX then ENQ else checksum.

Definition send_frame (now : Z) (cmd : string) (payload : option (list Z))
    (s : DaikinSerial) : Result.t * DaikinSerial :=
  match comm_state s with
  | CommState.Idle =>
      if (S21_MAX_COMMAND_SIZE <? strlen cmd)%nat then (Result.Error, s)
      else
        let s := flush_input (set_response [] s) in
        let s := write_byte STX s in
        let s := write_array (c_str cmd) s in
        let s := match payload with Some p => write_array p s | None => s end in
        let s := write_byte (tx_checksum cmd payload) s in
        let s := write_byte ETX s in
        let s := set_last_event_time now s in
        let s := set_comm_state
                   (match payload with
                    | Some _ => CommState.CommandAck
                    | None => CommState.QueryAck
                    end) s in
        (Result.Ack, s)
  | _ => (Result.Busy, s)
  end.

(** ** Session: [DaikinS21] *)

(** [lroundf(round(x * 2) / 2 * 10.0)] of [tx_next] is floating-point
    arithmetic; the type of [pending.setpoint] and that rounding are kept
    abstract. *)
Variable float : Type.
Variable round_c10 : float -> Z.

Record DaikinS21 : Type := mkS21 {
  serial : DaikinSerial;
  queries : list string;
  current_query : nat;
  tx_command : string;
  activate_climate : bool;
  activate_swing_mode : bool;
  refresh_state : bool;
  pending : DaikinSettings float;
  active : DaikinSettings Z;
  temp_inside : Z;
  temp_outside : Z;
  temp_coil : Z;
  fan_rpm : Z;
  compressor_hz : Z;
  swing_vertical_angle : Z;
  support_RH : bool;
  support_Ra : bool;
  support_RG : bool;
  ready : ReadyBits;
  debug_protocol : bool;
  val_cache : ValCache
}.

Definition set_serial (v : DaikinSerial) (s : DaikinS21) : DaikinS21 :=
  mkS21 v (queries s) (current_query s) (tx_command s) (activate_climate s)
        (activate_swing_mode s) (refresh_state s) (pending s) (active s) (temp_inside s)
        (temp_outside s) (temp_coil s) (fan_rpm s) (compressor_hz s)
        (swing_vertical_angle s) (support_RH s) (support_Ra s) (support_RG s) (ready s)
        (debug_protocol s) (val_cache s).

Definition set_queries (v : list string) (s : DaikinS21) : DaikinS21 :=
  mkS21 (serial s) v (current_query s) (tx_command s) (activate_climate s)
        (activate_swing_mode s) (refresh_state s) (pending s) (active s) (temp_inside s)
        (temp_outside s) (temp_coil s) (fan_rpm s) (compressor_hz s)
        (swing_vertical_angle s) (support_RH s) (support_Ra s) (support_RG s) (ready s)
        (debug_protocol s) (val_cache s).

Definition set_current_query (v : nat) (s : DaikinS21) : DaikinS21 :=
  mkS21 (serial s) (queries s) v (tx_command s) (activate_climate s)
        (activate_swing_mode s) (refresh_state s) (pending s) (active s) (temp_inside s)
        (temp_outside s) (temp_coil s) (fan_rpm s) (compressor_hz s)
        (swing_vertical_angle s) (support_RH s) (support_Ra s) (support_RG s) (ready s)
        (debug_protocol s) (val_cache s).

Definition set_tx_command (v : string) (s : DaikinS21) : DaikinS21 :=
  mkS21 (serial s) (queries s) (current_query s) v (activate_climate s)
        (activate_swing_mode s) (refresh_state s) (pending s) (active s) (temp_inside s)
        (temp_outside s) (temp_coil s) (fan_rpm s) (compressor_hz s)
        (swing_vertical_angle s) (support_RH s) (support_Ra s) (support_RG s) (ready s)
        (debug_protocol s) (val_cache s).

Definition set_activate_climate (v : bool) (s : DaikinS21) : DaikinS21 :=
  mkS21 (serial s) (queries s) (current_query s) (tx_command s) v
        (activate_swing_mode s) (refresh_state s) (pending s) (active s) (temp_inside s)
        (temp_outside s) (temp_coil s) (fan_rpm s) (compressor_hz s)
        (swing_vertical_angle s) (support_RH s) (support_Ra s) (support_RG s) (ready s)
        (debug_protocol s) (val_cache s).

Definition set_activate_swing_mode (v : bool) (s : DaikinS21) : DaikinS21 :=
  mkS21 (serial s) (queries s) (current_query s) (tx_command s) (activate_climate s) v
        (refresh_state s) (pending s) (active s) (temp_inside s) (temp_outside s)
        (temp_coil s) (fan_rpm s) (compressor_hz s) (swing_vertical_angle s)
        (support_RH s) (support_Ra s) (support_RG s) (ready s) (debug_protocol s)
        (val_cache s).

Definition set_refresh_state (v : bool) (s : DaikinS21) : DaikinS21 :=
  mkS21 (serial s) (queries s) (current_query s) (tx_command s) (activate_climate s)
        (activate_swing_mode s) v (pending s) (active s) (temp_inside s)
        (temp_outside s) (temp_coil s) (fan_rpm s) (compressor_hz s)
        (swing_vertical_angle s) (support_RH s) (support_Ra s) (support_RG s) (ready s)
        (debug_protocol s) (val_cache s).

Definition set_pending (v : DaikinSettings float) (s : DaikinS21) : DaikinS21 :=
  mkS21 (serial s) (queries s) (current_query s) (tx_command s) (activate_climate s)
        (activate_swing_mode s) (refresh_state s) v (active s) (temp_inside s)
        (temp_outside s) (temp_coil s) (fan_rpm s) (compressor_hz s)
        (swing_vertical_angle s) (support_RH s) (support_Ra s) (support_RG s) (ready s)
        (debug_protocol s) (val_cache s).

Definition set_active (v : DaikinSettings Z) (s : DaikinS21) : DaikinS21 :=
  mkS21 (serial s) (queries s) (current_query s) (tx_command s) (activate_climate s)
        (activate_swing_mode s) (refresh_state s) (pending s) v (temp_inside s)
        (temp_outside s) (temp_coil s) (fan_rpm s) (compressor_hz s)
        (swing_vertical_angle s) (support_RH s) (support_Ra s) (support_RG s) (ready s)
        (debug_protocol s) (val_cache s).

Definition set_temp_inside (v : Z) (s : DaikinS21) : DaikinS21 :=
  mkS21 (serial s) (queries s) (current_query s) (tx_command s) (activate_climate s)
        (activate_swing_mode s) (refresh_state s) (pending s) (active s) v
        (temp_outside s) (temp_coil s) (fan_rpm s) (compressor_hz s)
        (swing_vertical_angle s) (support_RH s) (support_Ra s) (support_RG s) (ready s)
        (debug_protocol s) (val_cache s).

Definition set_temp_outside (v : Z) (s : DaikinS21) : DaikinS21 :=
  mkS21 (serial s) (queries s) (current_query s) (tx_command s) (activate_climate s)
        (activate_swing_mode s) (refresh_state s) (pending s) (active s) (temp_inside s)
        v (temp_coil s) (fan_rpm s) (compressor_hz s) (swing_vertical_angle s)
        (support_RH s) (support_Ra s) (support_RG s) (ready s) (debug_protocol s)
        (val_cache s).

Definition set_temp_coil (v : Z) (s : DaikinS21) : DaikinS21 :=
  mkS21 (serial s) (queries s) (current_query s) (tx_command s) (activate_climate s)
        (activate_swing_mode s) (refresh_state s) (pending s) (active s) (temp_inside s)
        (temp_outside s) v (fan_rpm s) (compressor_hz s) (swing_vertical_angle s)
        (support_RH s) (support_Ra s) (support_RG s) (ready s) (debug_protocol s)
        (val_cache s).

Definition set_fan_rpm (v : Z) (s : DaikinS21) : DaikinS21 :=
  mkS21 (serial s) (queries s) (current_query s) (tx_command s) (activate_climate s)
        (activate_swing_mode s) (refresh_state s) (pending s) (active s) (temp_inside s)
        (temp_outside s) (temp_coil s) v (compressor_hz s) (swing_vertical_angle s)
        (support_RH s) (support_Ra s) (support_RG s) (ready s) (debug_protocol s)
        (val_cache s).

Definition set_compressor_hz (v : Z) (s : DaikinS21) : DaikinS21 :=
  mkS21 (serial s) (queries s) (current_query s) (tx_command s) (activate_climate s)
        (activate_swing_mode s) (refresh_state s) (pending s) (active s) (temp_inside s)
        (temp_outside s) (temp_coil s) (fan_rpm s) v (swing_vertical_angle s)
        (support_RH s) (support_Ra s) (support_RG s) (ready s) (debug_protocol s)
        (val_cache s).

Definition set_swing_vertical_angle (v : Z) (s : DaikinS21) : DaikinS21 :=
  mkS21 (serial s) (queries s) (current_query s) (tx_command s) (activate_climate s)
        (activate_swing_mode s) (refresh_state s) (pending s) (active s) (temp_inside s)
        (temp_outside s) (temp_coil s) (fan_rpm s) (compressor_hz s) v (support_RH s)
        (support_Ra s) (support_RG s) (ready s) (debug_protocol s) (val_cache s).

Definition set_support_RH (v : bool) (s : DaikinS21) : DaikinS21 :=
  mkS21 (serial s) (queries s) (current_query s) (tx_command s) (activate_climate s)
        (activate_swing_mode s) (refresh_state s) (pending s) (active s) (temp_inside s)
        (temp_outside s) (temp_coil s) (fan_rpm s) (compressor_hz s)
        (swing_vertical_angle s) v (support_Ra s) (support_RG s) (ready s)
        (debug_protocol s) (val_cache s).

Definition set_support_Ra (v : bool) (s : DaikinS21) : DaikinS21 :=
  mkS21 (serial s) (queries s) (current_query s) (tx_command s) (activate_climate s)
        (activate_swing_mode s) (refresh_state s) (pending s) (active s) (temp_inside s)
        (temp_outside s) (temp_coil s) (fan_rpm s) (compressor_hz s)
        (swing_vertical_angle s) (support_RH s) v (support_RG s) (ready s)
        (debug_protocol s) (val_cache s).

Definition set_support_RG (v : bool) (s : DaikinS21) : DaikinS21 :=
  mkS21 (serial s) (queries s) (current_query s) (tx_command s) (activate_climate s)
        (activate_swing_mode s) (refresh_state s) (pending s) (active s) (temp_inside s)
        (temp_outside s) (temp_coil s) (fan_rpm s) (compressor_hz s)
        (swing_vertical_angle s) (support_RH s) (support_Ra s) v (ready s)
        (debug_protocol s) (val_cache s).

Definition set_ready (v : ReadyBits) (s : DaikinS21) : DaikinS21 :=
  mkS21 (serial s) (queries s) (current_query s) (tx_command s) (activate_climate s)
        (activate_swing_mode s) (refresh_state s) (pending s) (active s) (temp_inside s)
        (temp_outside s) (temp_coil s) (fan_rpm s) (compressor_hz s)
        (swing_vertical_angle s) (support_RH s) (support_Ra s) (support_RG s) v
        (debug_protocol s) (val_cache s).

Definition set_val_cache (v : ValCache) (s : DaikinS21) : DaikinS21 :=
  mkS21 (serial s) (queries s) (current_query s) (tx_command s) (activate_climate s)
        (activate_swing_mode s) (refresh_state s) (pending s) (active s) (temp_inside s)
        (temp_outside s) (temp_coil s) (fan_rpm s) (compressor_hz s)
        (swing_vertical_angle s) (support_RH s) (support_Ra s) (support_RG s) (ready s)
        (debug_protocol s) v.

(** *** Small pieces of C++ used below *)

Definition bind {A B : Type} (o : option A) (f : A -> option B) : option B :=
  match o with
  | Some a => f a
  | None => None
  end.

Notation "x <- o ;; k" := (bind o (fun x => k))
  (at level 61, o at next level, right associativity).

(** [vector::erase(begin() + i)] *)
Definition erase {A : Type} (i : nat) (l : list A) : list A :=
  firstn i l ++ skipn (S i) l.

(** [std::find_if] for the first element equal to [q], as an index. *)
Fixpoint find_query (q : string) (l : list string) : nat :=
  match l with
  | [] => 0%nat
  | x :: l' => if String.eqb x q then 0%nat else S (find_query q l')
  end.

(** The characters of a [char] array before its first NUL. *)
Fixpoint until_nul (l : list Z) : list Z :=
  match l with
  | [] => []
  | c :: l' => if c =? 0 then [] else c :: until_nul l'
  end.

Definition bytes_eq_dec : forall a b : list Z, {a = b} + {a <> b} :=
  list_eq_dec Z.eq_dec.

(** [val_cache[key]]: the value stored, after inserting an empty vector
    for a key that is new. *)
Fixpoint cache_index (key : list Z) (c : ValCache) : list Z * ValCache :=
  match c with
  | [] => ([], [(key, [])])
  | (k, v) :: c' =>
      if bytes_eq_dec k key then (v, c)
      else let (r, c'') := cache_index key c' in (r, (k, v) :: c'')
  end.

(** [val_cache[key] = v] *)
Fixpoint cache_assign (key v : list Z) (c : ValCache) : ValCache :=
  match c with
  | [] => [(key, v)]
  | (k, w) :: c' =>
      if bytes_eq_dec k key then (key, v) :: c'
      else (k, w) :: cache_assign key v c'
  end.

Definition set_ready_basic (r : ReadyBits) : ReadyBits :=
  mkReady true (ReadySwing r) (ReadyCompressor r).
Definition set_ready_swing (r : ReadyBits) : ReadyBits :=
  mkReady (ReadyBasic r) true (ReadyCompressor r).
Definition set_ready_compressor (r : ReadyBits) : ReadyBits :=
  mkReady (ReadyBasic r) (ReadySwing r) true.

(** *** [refine_queries] *)

Definition refine_queries (s : DaikinS21) : DaikinS21 :=
  if support_Ra s && support_RH s then
    let f9 := find_query "F9" (queries s) in
    if negb (f9 =? length (queries s))%nat
    then set_queries (erase f9 (queries s)) s
    else s
  else s.

(** *** [tx_next] *)

Definition climate_payload (p : DaikinSettings float) : list Z :=
  [ if power_on p then ch "1" else ch "0";
    uint8 (mode p);
    c10_to_setpoint_byte (int16 (round_c10 (setpoint p)));
    uint8 (fan p) ].

Definition swing_payload (p : DaikinSettings float) : list Z :=
  [ uint8 (ch "0" + (if swing_h p && swing_v p then 4 else 0)
                  + (if swing_h p then 2 else 0)
                  + (if swing_v p then 1 else 0));
    if swing_v p || swing_h p then ch "?" else ch "0";
    ch "0";
    ch "0" ].

(** [this->serial.send_frame(tx_command, payload)], result dropped. *)
Definition serial_send (now : Z) (payload : option (list Z)) (s : DaikinS21) : DaikinS21 :=
  set_serial (snd (send_frame now (tx_command s) payload (serial s))) s.

Definition tx_next (now : Z) (s : DaikinS21) : option DaikinS21 :=
  if activate_climate s then
    let s := set_tx_command "D1" s in
    Some (serial_send now (Some (climate_payload (pending s))) s)
  else if activate_swing_mode s then
    let s := set_tx_command "D5" s in
    Some (serial_send now (Some (swing_payload (pending s))) s)
  else if negb (current_query s =? length (queries s))%nat then
    q <- nth_error (queries s) (current_query s) ;;
    let s := set_tx_command q s in
    Some (serial_send now None s)
  else if refresh_state s then
    let s := set_refresh_state false s in
    let s := refine_queries s in
    let s := set_current_query 0%nat s in
    q <- nth_error (queries s) (current_query s) ;;
    let s := set_tx_command q s in
    Some (serial_send now None s)
  else Some s.

(** *** [parse_ack] *)

(** [rcode[i]], where [char rcode[S21_MAX_COMMAND_SIZE + 1] = {}] holds the
    characters [code] followed by zeros. *)
Definition rcode_at (code : list Z) (i : nat) : option Z :=
  if (i <? S21_MAX_COMMAND_SIZE + 1)%nat then Some (nth i code 0) else None.

(** The block after the [switch], reached by the cases that [break]. *)
Definition report_changes (rcode payload : list Z) (s : DaikinS21) : DaikinS21 :=
  if debug_protocol s then
    let key := until_nul rcode in
    let (prev, cache) := cache_index key (val_cache s) in
    if bytes_eq_dec prev payload then set_val_cache cache s
    else set_val_cache (cache_assign key payload cache) s
  else s.

Definition set_fan (f : Z) (a : DaikinSettings Z) : DaikinSettings Z :=
  mkSettings (power_on a) (mode a) (setpoint a) f (swing_v a) (swing_h a).

Definition set_setpoint (t : Z) (a : DaikinSettings Z) : DaikinSettings Z :=
  mkSettings (power_on a) (mode a) t (fan a) (swing_v a) (swing_h a).

(** The [switch (rcode[0])] of [parse_ack]; [payload] is the part of the
    local [payload] array that [copy_n] has written, [payload_len] bytes. *)
Definition dispatch (rcode payload : list Z) (s : DaikinS21) : option DaikinS21 :=
  let payload_len := length payload in
  r0 <- rcode_at rcode 0 ;;
  if r0 =? ch "G" then
    r1 <- rcode_at rcode 1 ;;
    if r1 =? ch "1" then
      p0 <- nth_error payload 0 ;;
      p1 <- nth_error payload 1 ;;
      p2 <- nth_error payload 2 ;;
      let a := active s in
      let a := mkSettings (p0 =? ch "1") p1 ((p2 - 28) * 5) (fan a) (swing_v a) (swing_h a) in
      a <- (if negb (support_RG s)
            then p3 <- nth_error payload 3 ;; Some (set_fan p3 a)
            else Some a) ;;
      Some (set_ready (set_ready_basic (ready s)) (set_active a s))
    else if r1 =? ch "5" then
      p0 <- nth_error payload 0 ;;
      let a := active s in
      let a := mkSettings (power_on a) (mode a) (setpoint a) (fan a)
                 (negb (Z.land p0 1 =? 0)) (negb (Z.land p0 2 =? 0)) in
      Some (report_changes rcode payload
              (set_ready (set_ready_swing (ready s)) (set_active a s)))
    else if r1 =? ch "8" then
      Some (report_changes rcode payload s)
    else if r1 =? ch "9" then
      p0 <- nth_error payload 0 ;;
      p1 <- nth_error payload 1 ;;
      Some (report_changes rcode payload
              (set_temp_outside (temp_f9_byte_to_c10 p1)
                 (set_temp_inside (temp_f9_byte_to_c10 p0) s)))
    else Some (report_changes rcode payload s)
  else if r0 =? ch "S" then
    r1 <- rcode_at rcode 1 ;;
    if r1 =? ch "B" then Some s
    else if r1 =? ch "G" then
      p0 <- nth_error payload 0 ;;
      Some (set_support_RG true (set_active (set_fan p0 (active s)) s))
    else if r1 =? ch "H" then
      t <- temp_bytes_to_c10 payload ;;
      Some (set_support_RH true (set_temp_inside t s))
    else if r1 =? ch "I" then
      t <- temp_bytes_to_c10 payload ;;
      Some (set_temp_coil t s)
    else if r1 =? ch "a" then
      t <- temp_bytes_to_c10 payload ;;
      Some (set_support_Ra true (set_temp_outside t s))
    else if r1 =? ch "L" then
      n <- bytes_to_num payload payload_len ;;
      Some (set_fan_rpm (n * 10) s)
    else if r1 =? ch "d" then
      n <- bytes_to_num payload payload_len ;;
      Some (set_ready (set_ready_compressor (ready s)) (set_compressor_hz n s))
    else if r1 =? ch "C" then
      n <- bytes_to_num payload payload_len ;;
      Some (set_active (set_setpoint n (active s)) s)
    else if r1 =? ch "N" then
      n <- bytes_to_num payload 4 ;;
      Some (set_swing_vertical_angle n s)
    else
      (* 'F', 'M', 'X', 'z' and the rest: the payload is logged only *)
      Some (report_changes rcode payload s)
  else if r0 =? ch "M" then
    Some (report_changes rcode payload s)
  else if r0 =? ch "D" then
    r1 <- rcode_at rcode 1 ;;
    let s := if r1 =? ch "1" then set_activate_climate false s
             else if r1 =? ch "5" then set_activate_swing_mode false s
             else s in
    Some (set_refresh_state true s)
  else Some (report_changes rcode payload s).

Definition parse_ack (s : DaikinS21) : option DaikinS21 :=
  let rcode_len := strlen (tx_command s) in
  if (S21_MAX_COMMAND_SIZE + 1 <? rcode_len)%nat then
    None (* [copy_n] writes past the end of [rcode], which has
            [S21_MAX_COMMAND_SIZE + 1] elements *)
  else
    let resp := response (serial s) in
    match resp with
    | [] => dispatch (c_str (tx_command s)) [] s
    | _ :: _ =>
        if (length resp <? rcode_len)%nat then
          None (* [payload_len] wraps around *)
        else
          let payload := skipn rcode_len resp in
          if (S21_PAYLOAD_SIZE <? length payload)%nat then
            None (* [copy_n] writes past the end of [payload] *)
          else if (current_query s <? length (queries s))%nat then
            dispatch (firstn rcode_len resp) payload
              (set_current_query (S (current_query s)) s)
          else
            None (* [current_query++] on [queries.end()] *)
    end.

(** *** [handle_nak] *)

Definition handle_nak (s : DaikinS21) : option DaikinS21 :=
  q <- nth_error (queries s) (current_query s) ;;
  if String.eqb (tx_command s) q then
    let index := current_query s in
    Some (set_current_query index (set_queries (erase index (queries s)) s))
  else parse_ack s.

(** *** [setup], [loop], [update] and the setters *)

Definition setup (s : DaikinS21) : DaikinS21 :=
  let s := set_queries
             ["F1"; "F5"; "F9"; "Rd"; "RH"; "RI"; "Ra"; "RL"; "RG"]%string s in
  set_current_query 0%nat s.

Definition loop (now : Z) (s : DaikinS21) : option DaikinS21 :=
  rs <- service now (serial s) ;;
  let s := set_serial (snd rs) s in
  match fst rs with
  | Result.Ack => parse_ack s
  | Result.Idle => tx_next now s
  | Result.Nak => handle_nak s
  | Result.Error =>
      let s := set_current_query (length (queries s)) s in
      let s := set_refresh_state true s in
      let s := set_activate_climate false s in
      Some (set_activate_swing_mode false s)
  | Result.Timeout => Some s
  | Result.Busy => Some s
  end.

Definition update (s : DaikinS21) : DaikinS21 := set_refresh_state true s.

Definition set_daikin_climate_settings (power : bool) (mode_ : Z) (setpoint_ : float)
    (fan_mode : Z) (s : DaikinS21) : DaikinS21 :=
  let p := pending s in
  set_activate_climate true
    (set_pending (mkSettings power mode_ setpoint_ fan_mode (swing_v p) (swing_h p)) s).

Definition set_swing_settings (v h : bool) (s : DaikinS21) : DaikinS21 :=
  let p := pending s in
  set_activate_swing_mode true
    (set_pending (mkSettings (power_on p) (mode p) (setpoint p) (fan p) v h) s).

(** *** The driver as seen by its host *)

Inductive Event : Type :=
| Tick (now : Z)                      (* the host calls [loop()] *)
| Receive (bytes : list Z)            (* bytes arrive at the receiving UART *)
| Update                              (* the host calls [update()] *)
| SetClimate (power : bool) (mode_ : Z) (setpoint_ : float) (fan_mode : Z)
| SetSwing (v h : bool).

Definition step (e : Event) (s : DaikinS21) : option DaikinS21 :=
  match e with
  | Tick now => loop now s
  | Receive bytes =>
      Some (set_serial (set_rx_uart (rx_uart (serial s) ++ bytes) (serial s)) s)
  | Update => Some (update s)
  | SetClimate p m t f => Some (set_daikin_climate_settings p m t f s)
  | SetSwing v h => Some (set_swing_settings v h s)
  end.

Fixpoint run (es : list Event) (s : DaikinS21) : option DaikinS21 :=
  match es with
  | [] => Some s
  | e :: es' => s' <- step e s ;; run es' s'
  end.

(** ** Vocabulary of the statements *)

(** The 8-bit truncated sum of a frame body. *)
Definition sum8 (body : list Z) : Z := uint8 (fold_right Z.add 0 body).

(** The checksum byte of a frame with the given body: its 8-bit sum, with
    [ENQ] standing in for [STX]. *)
Definition frame_checksum (body : list Z) : Z :=
  if sum8 body =? STX then ENQ else sum8 body.

Definition payload_bytes (payload : option (list Z)) : list Z :=
  match payload with
  | Some p => p
  | None => []
  end.

(** The wire frame [STX command payload? checksum ETX]. *)
Definition wire_frame (cmd : string) (payload : option (list Z)) : list Z :=
  [STX] ++ c_str cmd ++ payload_bytes payload
        ++ [frame_checksum (c_str cmd ++ payload_bytes payload); ETX].

(** The bytes written to the transmitting UART between two states. *)
Definition emitted (before after : DaikinSerial) : list Z :=
  skipn (length (tx_uart before)) (tx_uart after).

(** Round trip of a command frame: [s] sends it, and a receiver [r] that
    reads [ACK] and then the bytes [s] has emitted ends with [Ack] and
    holds command and payload in its response buffer. *)
Definition roundtrip (now now' : Z) (cmd : string) (payload : list Z)
    (s r : DaikinSerial) : Prop :=
  let s' := snd (send_frame now cmd (Some payload) s) in
  exists r',
    read_available now' (ACK :: emitted s s') r = Some (Result.Ack, r')
    /\ response r' = c_str cmd ++ payload
    /\ rx_uart r' = [].

(** The receiver accepts the frame it holds when [ETX] arrives. *)
Definition accepts (r : DaikinSerial) : Prop :=
  exists r', handle_rx ETX r = Some (Result.Ack, r').

(** The link waits for the first byte of a reply: [QueryAck] or [CommandAck]. *)
Definition awaiting_ack (ser : DaikinSerial) : Prop :=
  comm_state ser = CommState.QueryAck \/ comm_state ser = CommState.CommandAck.

(** The reply to the basic-state query used in the end-to-end scenario:
    [ACK], [STX], a response code [code0 '1'], the payload ['1' 'A' '0' '3'],
    the matching checksum and [ETX]. *)
Definition basic_state_body (code0 : Z) : list Z :=
  [code0; ch "1"; ch "1"; ch "A"; ch "0"; ch "3"].

Definition basic_state_reply (code0 : Z) : list Z :=
  [ACK; STX] ++ basic_state_body code0
             ++ [frame_checksum (basic_state_body code0); ETX].

(** The link is receiving: every state but [Idle] and [Cooldown]. *)
Definition receiving (c : CommState.t) : bool :=
  match c with
  | CommState.Idle | CommState.Cooldown => false
  | _ => true
  end.

(** What the transport keeps true of its response buffer: it is empty
    until the [STX] of a reply has been read, and holds at most
    [S21_MAX_COMMAND_SIZE + S21_PAYLOAD_SIZE + 1] bytes while a frame is
    being collected. *)
Definition response_in_bounds (s : DaikinSerial) : Prop :=
  match comm_state s with
  | CommState.QueryAck | CommState.CommandAck | CommState.QueryStx =>
      response s = []
  | CommState.QueryEtx =>
      (length (response s) <= S21_MAX_COMMAND_SIZE + S21_PAYLOAD_SIZE + 1)%nat
  | _ =>
      (length (response s) <= S21_MAX_COMMAND_SIZE + S21_PAYLOAD_SIZE + 2)%nat
  end.


(** What an operation on the session keeps: a cursor inside the pool stays
    inside the pool, [debug_protocol] keeps its value, and with
    [debug_protocol] off the cache of last-seen payloads keeps its value. *)
Definition session_kept (s s' : DaikinS21) : Prop :=
  ((current_query s <= length (queries s))%nat ->
   (current_query s' <= length (queries s'))%nat)
  /\ debug_protocol s' = debug_protocol s
  /\ (debug_protocol s = false -> val_cache s' = val_cache s).


(** ** Arithmetic of the checksum *)

Lemma uint8_uint32 (z : Z) : uint8 (uint32 z) = uint8 z.
Proof.
  unfold uint8, uint32.
  apply Z.mod_mod_divide.
  exists 16777216. reflexivity.
Qed.

Lemma uint8_add_l (a b : Z) : uint8 (uint8 a + b) = uint8 (a + b).
Proof. unfold uint8. apply Zplus_mod_idemp_l. Qed.

Lemma accumulate_uint32 (l : list Z) :
  forall a, uint8 (accumulate uint32 l a) = uint8 (a + fold_right Z.add 0 l).
Proof.
  unfold accumulate.
  induction l as [|b l IH]; intros a; simpl.
  - f_equal. lia.
  - rewrite IH. rewrite <- uint8_add_l, uint8_uint32, uint8_add_l.
    f_equal. lia.
Qed.

Lemma accumulate_uint8 (l : list Z) :
  forall a, accumulate uint8 l (uint8 a) = uint8 (a + fold_right Z.add 0 l).
Proof.
  unfold accumulate.
  induction l as [|b l IH]; intros a; simpl.
  - f_equal. lia.
  - rewrite uint8_add_l, IH. f_equal. lia.
Qed.

Lemma fold_right_add_app (l1 l2 : list Z) :
  fold_right Z.add 0 (l1 ++ l2) = fold_right Z.add 0 l1 + fold_right Z.add 0 l2.
Proof. induction l1 as [|x l1 IH]; simpl; lia. Qed.

Lemma calc_checksum_sum8 (body : list Z) :
  uint8 (accumulate uint32 body 0) = sum8 body.
Proof. rewrite accumulate_uint32. reflexivity. Qed.

Lemma tx_checksum_frame (cmd : string) (payload : option (list Z)) :
  tx_checksum cmd payload = frame_checksum (c_str cmd ++ payload_bytes payload).
Proof.
  unfold tx_checksum, frame_checksum, sum8.
  rewrite accumulate_uint32. simpl (0 + _).
  destruct payload as [p|]; simpl payload_bytes.
  - rewrite accumulate_uint8, fold_right_add_app. reflexivity.
  - rewrite app_nil_r. reflexivity.
Qed.

Lemma int16_small (z : Z) : -32768 <= z < 32768 -> int16 z = z.
Proof. intros H. unfold int16. rewrite Z.mod_small; lia. Qed.

(** ** The numeric codec *)

(** C7.  For every integer [n] with [-999 <= n <= 999], [bytes_to_num]
    applied to the four bytes [ones digit, tens digit, hundreds digit, sign]
    of [n] (sign ['-'] exactly when [n] is negative) gives back [n]. *)
Theorem bytes_to_num_inverse (n plus : Z) :
  -999 <= n <= 999 -> plus <> ch "-" ->
  bytes_to_num (num_to_bytes plus n) 4 = Some n.
Proof.
  intros Hn Hplus.
  unfold bytes_to_num, num_to_bytes; cbn [nth_error].
  replace (3 <? 4)%nat with true by reflexivity.
  set (m := Z.abs n).
  assert (Hm : 0 <= m <= 999) by (subst m; lia).
  replace (ch "0" + m mod 10 - ch "0") with (m mod 10) by ring.
  replace (ch "0" + (m / 10) mod 10 - ch "0") with ((m / 10) mod 10) by ring.
  replace (ch "0" + (m / 100) mod 10 - ch "0") with ((m / 100) mod 10) by ring.
  assert (Hd : m mod 10 + (m / 10) mod 10 * 10 + (m / 100) mod 10 * 100 = m).
  { clearbody m. Z.to_euclidean_division_equations. lia. }
  pose proof (Z.mod_pos_bound m 10 ltac:(lia)).
  pose proof (Z.mod_pos_bound (m / 10) 10 ltac:(lia)).
  pose proof (Z.mod_pos_bound (m / 100) 10 ltac:(lia)).
  rewrite (int16_small (m mod 10)) by lia.
  rewrite (int16_small (m mod 10 + _)) by lia.
  rewrite Hd, (int16_small m) by lia.
  destruct (n <? 0) eqn:Hneg.
  - rewrite Z.eqb_refl, int16_small by lia.
    apply Z.ltb_lt in Hneg. f_equal. subst m. lia.
  - apply Z.ltb_ge in Hneg.
    destruct (plus =? ch "-") eqn:E; [apply Z.eqb_eq in E; contradiction|].
    f_equal. subst m. lia.
Qed.

(** ** The receive state machine on a frame *)

(** Reduce the setters of [DaikinSerial] applied to a known record. *)
Ltac serial_simpl :=
  cbv beta iota zeta delta
      [enter_cooldown write_byte write_array set_comm_state set_cooldown_length
       set_last_event_time set_response set_rx_uart flush_input
       comm_state cooldown_length last_event_time response tx_uart rx_uart].

Ltac serial_simpl_in H :=
  cbv beta iota zeta delta
      [enter_cooldown write_byte write_array set_comm_state set_cooldown_length
       set_last_event_time set_response set_rx_uart flush_input
       comm_state cooldown_length last_event_time response tx_uart rx_uart] in H.

Lemma pop_back_app (l : list Z) (x : Z) : pop_back (l ++ [x]) = Some (l, x).
Proof.
  induction l as [|y l IH]; simpl.
  - reflexivity.
  - rewrite IH. reflexivity.
Qed.

Lemma c_str_length (cmd : string) : length (c_str cmd) = strlen cmd.
Proof.
  unfold c_str, strlen. rewrite length_map.
  induction cmd as [|c cmd IH]; simpl; auto.
Qed.

Lemma skipn_length_app {A : Type} (l1 l2 : list A) :
  skipn (length l1) (l1 ++ l2) = l2.
Proof. induction l1 as [|x l1 IH]; simpl; auto. Qed.

Lemma handle_rx_push (byte : Z) (s : DaikinSerial) :
  comm_state s = CommState.QueryEtx ->
  byte <> ETX ->
  (length (response s) < S21_MAX_COMMAND_SIZE + S21_PAYLOAD_SIZE + 1)%nat ->
  handle_rx byte s = Some (Result.Busy, set_response (response s ++ [byte]) s).
Proof.
  intros Hst Hb Hlen. unfold handle_rx. rewrite Hst.
  apply Z.eqb_neq in Hb. rewrite Hb. cbn [negb].
  cbn [response set_response].
  rewrite length_app. cbn [length].
  destruct (Nat.ltb_spec (S21_MAX_COMMAND_SIZE + S21_PAYLOAD_SIZE + 1)
              (length (response s) + 1)); [lia | reflexivity].
Qed.

Lemma handle_rx_etx (body : list Z) (checksum : Z) (s : DaikinSerial) :
  comm_state s = CommState.QueryEtx ->
  response s = body ++ [checksum] ->
  handle_rx ETX s =
    Some (if checksum_ok (sum8 body) checksum
          then (Result.Ack,
                enter_cooldown S21_RESPONSE_TURNAROUND (write_byte ACK (set_response body s)))
          else (Result.Error, enter_cooldown S21_ERROR_TIMEOUT (set_response body s))).
Proof.
  intros Hst Hresp. unfold handle_rx. rewrite Hst, Hresp, pop_back_app.
  rewrite Z.eqb_refl. cbn [negb]. rewrite calc_checksum_sum8.
  destruct (checksum_ok (sum8 body) checksum); reflexivity.
Qed.

Lemma read_available_frame (now : Z) (body : list Z) :
  forall resp cl t tx rx checksum,
    ~ In ETX body ->
    checksum <> ETX ->
    (length resp + length body <= S21_MAX_COMMAND_SIZE + S21_PAYLOAD_SIZE)%nat ->
    checksum_ok (sum8 (resp ++ body)) checksum = true ->
    read_available now (body ++ [checksum; ETX])
        (mkSerial CommState.QueryEtx cl t resp tx rx)
    = Some (Result.Ack,
            mkSerial CommState.Cooldown S21_RESPONSE_TURNAROUND now
                     (resp ++ body) (tx ++ [ACK]) []).
Proof.
  induction body as [|b body IH]; intros resp cl t tx rx checksum Hetx Hck Hlen Hok.
  - rewrite app_nil_r in Hok. cbn [app read_available].
    rewrite handle_rx_push; [|reflexivity|assumption|cbn in *; lia].
    serial_simpl.
    rewrite (handle_rx_etx resp checksum); [|reflexivity|reflexivity].
    rewrite Hok, app_nil_r. reflexivity.
  - cbn [app read_available].
    rewrite handle_rx_push;
      [|reflexivity|intros ->; apply Hetx; left; reflexivity|cbn in *; lia].
    serial_simpl.
    rewrite IH.
    + rewrite <- app_assoc. reflexivity.
    + intros Hin. apply Hetx. right. exact Hin.
    + assumption.
    + rewrite length_app. cbn in *. lia.
    + rewrite <- app_assoc. exact Hok.
Qed.

Lemma checksum_ok_frame (body : list Z) :
  checksum_ok (sum8 body) (frame_checksum body) = true.
Proof.
  unfold checksum_ok, frame_checksum.
  destruct (sum8 body =? STX) eqn:E.
  - rewrite Z.eqb_refl. apply orb_true_r.
  - rewrite Z.eqb_refl. reflexivity.
Qed.

Lemma send_frame_idle (now : Z) (cmd : string) (payload : option (list Z))
    (s : DaikinSerial) :
  comm_state s = CommState.Idle ->
  (strlen cmd <= S21_MAX_COMMAND_SIZE)%nat ->
  send_frame now cmd payload s =
    (Result.Ack,
     mkSerial (match payload with
               | Some _ => CommState.CommandAck
               | None => CommState.QueryAck
               end)
              (cooldown_length s) now [] (tx_uart s ++ wire_frame cmd payload) []).
Proof.
  intros Hidle Hlen. unfold send_frame. rewrite Hidle.
  destruct (Nat.ltb_spec S21_MAX_COMMAND_SIZE (strlen cmd)); [lia|].
  unfold wire_frame. rewrite tx_checksum_frame.
  generalize (frame_checksum (c_str cmd ++ payload_bytes payload)) as c.
  generalize (c_str cmd) as bs. intros bs c.
  destruct s as [st cl t resp tx rx].
  destruct payload as [p|]; serial_simpl;
    cbn [payload_bytes]; do 2 f_equal;
    rewrite <- !app_assoc; reflexivity.
Qed.

(** ** The transmit side *)

(** C3.  [send_frame] returns [Busy] and changes nothing unless the link is
    [Idle]; on an idle link it returns [Error] for a command longer than
    [S21_MAX_COMMAND_SIZE]; otherwise it clears the response buffer, drops
    the unread input, writes [STX command payload? checksum ETX], records
    [now] as the last event, moves to [CommandAck] (payload) or [QueryAck]
    (no payload) and returns [Ack]. *)
Theorem send_frame_spec (now : Z) (cmd : string) (payload : option (list Z))
    (s : DaikinSerial) :
  (comm_state s <> CommState.Idle ->
     send_frame now cmd payload s = (Result.Busy, s))
  /\ (comm_state s = CommState.Idle ->
      (S21_MAX_COMMAND_SIZE < strlen cmd)%nat ->
      send_frame now cmd payload s = (Result.Error, s))
  /\ (comm_state s = CommState.Idle ->
      (strlen cmd <= S21_MAX_COMMAND_SIZE)%nat ->
      send_frame now cmd payload s =
        (Result.Ack,
         mkSerial (match payload with
                   | Some _ => CommState.CommandAck
                   | None => CommState.QueryAck
                   end)
                  (cooldown_length s) now []
                  (tx_uart s ++ [STX] ++ c_str cmd ++ payload_bytes payload
                           ++ [frame_checksum (c_str cmd ++ payload_bytes payload); ETX])
                  [])).
Proof.
  repeat split.
  - intros Hbusy. unfold send_frame.
    destruct (comm_state s); try reflexivity. contradiction.
  - intros Hidle Hlong. unfold send_frame. rewrite Hidle.
    destruct (Nat.ltb_spec S21_MAX_COMMAND_SIZE (strlen cmd)); [reflexivity | lia].
  - intros Hidle Hlen. apply send_frame_idle; assumption.
Qed.

(** C2 (amended).  When the 8-bit sum of command and payload is [STX],
    [send_frame] writes [ENQ] as the checksum byte; and a receiver holding
    [body] followed by [ENQ] accepts the frame exactly when the sum it
    recomputes over [body] is [STX] or is [ENQ] itself. *)
Theorem checksum_escape (now : Z) (cmd : string) (payload : option (list Z))
    (s r : DaikinSerial) (body : list Z) :
  (sum8 (c_str cmd ++ payload_bytes payload) = STX ->
   comm_state s = CommState.Idle ->
   (strlen cmd <= S21_MAX_COMMAND_SIZE)%nat ->
   emitted s (snd (send_frame now cmd payload s))
   = [STX] ++ c_str cmd ++ payload_bytes payload ++ [ENQ; ETX])
  /\ (comm_state r = CommState.QueryEtx ->
      response r = body ++ [ENQ] ->
      (accepts r <-> sum8 body = STX \/ sum8 body = ENQ)).
Proof.
  split.
  - intros Hsum Hidle Hlen.
    rewrite send_frame_idle by assumption.
    unfold emitted. cbn [snd tx_uart]. rewrite skipn_length_app.
    unfold wire_frame, frame_checksum. rewrite Hsum. reflexivity.
  - intros Hst Hresp. unfold accepts.
    rewrite (handle_rx_etx body ENQ) by assumption.
    unfold checksum_ok. rewrite Z.eqb_refl, andb_true_r.
    destruct (Z.eqb_spec (sum8 body) ENQ) as [E5|E5];
      destruct (Z.eqb_spec (sum8 body) STX) as [E2|E2]; cbn [orb].
    + split; [auto | intros _; eexists; reflexivity].
    + split; [auto | intros _; eexists; reflexivity].
    + split; [auto | intros _; eexists; reflexivity].
    + split.
      * intros [r' H]. discriminate H.
      * intros [H | H]; contradiction.
Qed.

(** C1 (amended).  For a command of length at most [S21_MAX_COMMAND_SIZE]
    and a 4-byte payload in which no byte is [ETX] and whose 8-bit sum is
    not [ETX], the frame that [send_frame] emits, read after an [ACK] by a
    receiver waiting in [QueryAck], ends with [Ack] and leaves exactly
    command and payload in the response buffer. *)
Theorem frame_roundtrip (now now' : Z) (cmd : string) (payload : list Z)
    (s r : DaikinSerial) :
  (strlen cmd <= S21_MAX_COMMAND_SIZE)%nat ->
  length payload = S21_PAYLOAD_SIZE ->
  ~ In ETX (c_str cmd ++ payload) ->
  sum8 (c_str cmd ++ payload) <> ETX ->
  comm_state s = CommState.Idle ->
  comm_state r = CommState.QueryAck ->
  response r = [] ->
  roundtrip now now' cmd payload s r.
Proof.
  intros Hlen Hpay Hetx Hsum Hidle Hack Hresp.
  unfold roundtrip.
  rewrite send_frame_idle by assumption.
  unfold emitted. cbn [snd tx_uart]. rewrite skipn_length_app.
  unfold wire_frame. cbn [payload_bytes].
  destruct r as [st cl t resp tx rx]. cbn in Hack, Hresp. subst st resp.
  eexists. split; [|split].
  - cbn [app read_available]. unfold handle_rx at 1.
    serial_simpl.
    rewrite Z.eqb_refl.
    unfold handle_rx at 1.
    serial_simpl.
    rewrite Z.eqb_refl.
    rewrite app_assoc.
    apply read_available_frame.
    + exact Hetx.
    + unfold frame_checksum.
      destruct (sum8 (c_str cmd ++ payload) =? STX); [discriminate | exact Hsum].
    + rewrite length_app, Hpay, c_str_length. cbn [length]. lia.
    + cbn [app]. apply checksum_ok_frame.
  - reflexivity.
  - reflexivity.
Qed.

(** The side conditions of the round trip are needed: a frame with an
    [ETX] among its body and checksum bytes is cut short by the receiver. *)

Lemma pop_back_inv (l : list Z) :
  forall front final, pop_back l = Some (front, final) -> l = front ++ [final].
Proof.
  induction l as [|x l IH]; intros front final H; cbn [pop_back] in H.
  - discriminate H.
  - destruct (pop_back l) as [[f c]|] eqn:E.
    + injection H as <- <-. rewrite (IH f c eq_refl). reflexivity.
    + injection H as <- <-. destruct l as [|y l]; [reflexivity|].
      cbn [pop_back] in E. destruct (pop_back l) as [[? ?]|]; discriminate E.
Qed.

Lemma first_occurrence (x : Z) (l : list Z) :
  In x l -> exists pre rest, l = pre ++ x :: rest /\ ~ In x pre.
Proof.
  induction l as [|y l IH]; intros Hin; [contradiction|].
  destruct (Z.eq_dec y x) as [-> | Hne].
  - exists [], l. split; [reflexivity | intros []].
  - destruct Hin as [Heq | Hin]; [contradiction|].
    destruct (IH Hin) as (pre & rest & -> & Hpre).
    exists (y :: pre), rest. split; [reflexivity|].
    intros [Heq | Hin']; [contradiction | exact (Hpre Hin')].
Qed.

Lemma read_available_early_etx (now : Z) (pre : list Z) :
  forall resp cl t tx rx rest r',
    ~ In ETX pre ->
    read_available now (pre ++ ETX :: rest)
        (mkSerial CommState.QueryEtx cl t resp tx rx)
    = Some (Result.Ack, r') ->
    S (length (response r')) = length (resp ++ pre).
Proof.
  induction pre as [|b pre IH]; intros resp cl t tx rx rest r' Hpre H.
  - cbn [app read_available] in H. unfold handle_rx in H.
    serial_simpl_in H. rewrite Z.eqb_refl in H. cbn [negb] in H.
    destruct (pop_back resp) as [[body checksum]|] eqn:E; [|discriminate].
    apply pop_back_inv in E. subst resp.
    destruct (checksum_ok _ checksum); [|discriminate H].
    injection H as <-. rewrite app_nil_r, length_app. cbn. lia.
  - cbn [app read_available] in H. unfold handle_rx in H.
    serial_simpl_in H.
    destruct (Z.eqb_spec b ETX) as [-> | _].
    { exfalso. apply Hpre. left. reflexivity. }
    cbn [negb] in H.
    destruct (_ <? _)%nat; [discriminate H|].
    apply IH in H.
    + rewrite H, <- app_assoc. reflexivity.
    + intros Hin. apply Hpre. right. exact Hin.
Qed.

Lemma frame_roundtrip_only_if (now now' : Z) (cmd : string) (payload : list Z)
    (s r : DaikinSerial) :
  (strlen cmd <= S21_MAX_COMMAND_SIZE)%nat ->
  comm_state s = CommState.Idle ->
  comm_state r = CommState.QueryAck ->
  response r = [] ->
  roundtrip now now' cmd payload s r ->
  ~ In ETX (c_str cmd ++ payload) /\ sum8 (c_str cmd ++ payload) <> ETX.
Proof.
  intros Hlen Hidle Hack Hresp (r' & Hread & Hbody & _).
  rewrite send_frame_idle in Hread by assumption.
  unfold emitted in Hread. cbn [snd tx_uart] in Hread.
  rewrite skipn_length_app in Hread.
  unfold wire_frame in Hread. cbn [payload_bytes] in Hread.
  set (body := c_str cmd ++ payload) in *.
  destruct r as [st cl t resp tx rx]. cbn in Hack, Hresp. subst st resp.
  cbn [app read_available] in Hread. unfold handle_rx at 1 in Hread.
  serial_simpl_in Hread. rewrite Z.eqb_refl in Hread.
  unfold handle_rx at 1 in Hread.
  serial_simpl_in Hread. rewrite Z.eqb_refl in Hread.
  assert (Hnone : ~ In ETX (body ++ [frame_checksum body])).
  { intros Hin. apply first_occurrence in Hin.
    destruct Hin as (pre & rest & Hsplit & Hpre).
    replace (c_str cmd ++ payload ++ [frame_checksum body; ETX])
      with (pre ++ ETX :: rest ++ [ETX]) in Hread.
    2:{ change (c_str cmd ++ payload ++ [frame_checksum body; ETX])
          with (c_str cmd ++ payload ++ [frame_checksum body] ++ [ETX]).
        rewrite !app_assoc. fold body. rewrite Hsplit, <- app_assoc. reflexivity. }
    apply read_available_early_etx in Hread; [|exact Hpre].
    rewrite Hbody in Hread. fold body in Hread. cbn [app] in Hread.
    apply (f_equal (@length Z)) in Hsplit.
    rewrite !length_app in Hsplit. cbn [length] in Hsplit. lia. }
  split.
  - intros Hin. apply Hnone. apply in_or_app. left. exact Hin.
  - intros Hsum. apply Hnone. apply in_or_app. right. left.
    unfold frame_checksum. rewrite Hsum. reflexivity.
Qed.

(** ** The query pool *)

Lemma erase_cons_S {A : Type} (x : A) (i : nat) (l : list A) :
  erase (S i) (x :: l) = x :: erase i l.
Proof. reflexivity. Qed.

Lemma erase_length {A : Type} (l : list A) :
  forall i, (i < length l)%nat -> (length (erase i l) + 1 = length l)%nat.
Proof.
  induction l as [|x l IH]; intros i Hi; [cbn in Hi; lia|].
  destruct i as [|i].
  - unfold erase. cbn. lia.
  - rewrite erase_cons_S. cbn [length] in *.
    specialize (IH i ltac:(lia)). lia.
Qed.

Lemma erase_nth_error {A : Type} (l : list A) :
  forall i, nth_error (erase i l) i = nth_error l (S i).
Proof.
  induction l as [|x l IH]; intros i.
  - unfold erase. rewrite firstn_nil, skipn_nil. destruct i; reflexivity.
  - destruct i as [|i].
    + reflexivity.
    + rewrite erase_cons_S. cbn [nth_error]. apply IH.
Qed.

Lemma erase_In {A : Type} (l : list A) :
  forall i x, In x (erase i l) -> In x l.
Proof.
  induction l as [|y l IH]; intros i x Hin.
  - unfold erase in Hin. rewrite firstn_nil, skipn_nil in Hin. exact Hin.
  - destruct i as [|i].
    + right. exact Hin.
    + rewrite erase_cons_S in Hin. destruct Hin as [-> | Hin].
      * left. reflexivity.
      * right. eapply IH. exact Hin.
Qed.

Lemma erase_NoDup {A : Type} (l : list A) :
  forall i q, NoDup l -> nth_error l i = Some q -> ~ In q (erase i l).
Proof.
  induction l as [|x l IH]; intros i q Hnd Hnth.
  - destruct i; discriminate Hnth.
  - inversion Hnd as [|? ? Hx Hl]; subst.
    destruct i as [|i]; cbn [nth_error] in Hnth.
    + injection Hnth as ->. exact Hx.
    + rewrite erase_cons_S. intros [-> | Hin].
      * apply Hx. eapply nth_error_In. exact Hnth.
      * eapply IH; eassumption.
Qed.

(** C4.  In a pool of unique codes with the cursor on the entry [q], a NAK
    for [q] removes [q] from the pool, shortens the pool by exactly one,
    and leaves the cursor on the entry that followed [q] -- at the end of
    the pool exactly when [q] was the last entry. *)
Theorem handle_nak_prunes_query (s : DaikinS21) (q : string) :
  NoDup (queries s) ->
  nth_error (queries s) (current_query s) = Some q ->
  tx_command s = q ->
  exists s',
    handle_nak s = Some s'
    /\ ~ In q (queries s')
    /\ (length (queries s') + 1 = length (queries s))%nat
    /\ nth_error (queries s') (current_query s')
       = nth_error (queries s) (S (current_query s))
    /\ (current_query s' = length (queries s')
        <-> S (current_query s) = length (queries s)).
Proof.
  intros Hnd Hq Htx.
  assert (Hlt : (current_query s < length (queries s))%nat).
  { apply nth_error_Some. rewrite Hq. discriminate. }
  unfold handle_nak. rewrite Hq. cbn [bind].
  rewrite Htx, String.eqb_refl.
  eexists. split; [reflexivity|].
  destruct s; cbn [queries current_query set_queries set_current_query] in *.
  pose proof (erase_length queries0 current_query0 Hlt) as Hlen.
  repeat split.
  - apply erase_NoDup; assumption.
  - exact Hlen.
  - apply erase_nth_error.
  - lia.
  - lia.
Qed.

(** ** Reaction of [loop] to transport faults *)

(** C6.  When [service] reports [Error], [loop] moves the cursor to the end
    of the pool, clears [activate_climate] and [activate_swing_mode] and
    sets [refresh_state]; when it reports [Timeout], [loop] changes nothing.
    Every other field of the session keeps its value; the transport is as
    [service] left it. *)
Theorem loop_error_timeout (now : Z) (s : DaikinS21) (ser : DaikinSerial) :
  (service now (serial s) = Some (Result.Error, ser) ->
   loop now s =
     Some (mkS21 ser (queries s) (length (queries s)) (tx_command s)
             false false true
             (pending s) (active s) (temp_inside s) (temp_outside s) (temp_coil s)
             (fan_rpm s) (compressor_hz s) (swing_vertical_angle s)
             (support_RH s) (support_Ra s) (support_RG s) (ready s)
             (debug_protocol s) (val_cache s)))
  /\ (service now (serial s) = Some (Result.Timeout, ser) ->
      loop now s =
        Some (mkS21 ser (queries s) (current_query s) (tx_command s)
                (activate_climate s) (activate_swing_mode s) (refresh_state s)
                (pending s) (active s) (temp_inside s) (temp_outside s) (temp_coil s)
                (fan_rpm s) (compressor_hz s) (swing_vertical_angle s)
                (support_RH s) (support_Ra s) (support_RG s) (ready s)
                (debug_protocol s) (val_cache s))).
Proof.
  split; intros Hsvc; unfold loop; rewrite Hsvc; reflexivity.
Qed.

(** ** [service] on the replies of the unit *)

Lemma service_idle (now : Z) (ser : DaikinSerial) :
  comm_state ser = CommState.Idle -> service now ser = Some (Result.Idle, ser).
Proof. intros H. unfold service. rewrite H. reflexivity. Qed.

Lemma service_cooldown_over (now : Z) (ser : DaikinSerial) :
  comm_state ser = CommState.Cooldown ->
  cooldown_length ser < uint32 (now - last_event_time ser) ->
  service now ser = Some (Result.Idle, set_comm_state CommState.Idle ser).
Proof.
  intros H Ht. unfold service. rewrite H.
  apply Z.ltb_lt in Ht. rewrite Ht. reflexivity.
Qed.

Lemma service_reply_nak (now : Z) (ser : DaikinSerial) (rest : list Z) :
  awaiting_ack ser ->
  uint32 (now - last_event_time ser) <= S21_RESPONSE_TIMEOUT ->
  rx_uart ser = NAK :: rest ->
  service now ser =
    Some (Result.Nak,
          mkSerial CommState.Cooldown S21_RESPONSE_TURNAROUND now
                   (response ser) (tx_uart ser) rest).
Proof.
  intros Hst Ht Hrx. destruct ser as [st cl t resp tx rx].
  unfold awaiting_ack in Hst. cbn in Hst, Ht, Hrx. subst rx.
  apply Z.ltb_ge in Ht. unfold service. serial_simpl.
  destruct Hst as [-> | ->]; rewrite Ht; cbn [read_available];
    unfold handle_rx; serial_simpl; reflexivity.
Qed.

Lemma service_reply_garbage (now : Z) (ser : DaikinSerial) (b : Z) (rest : list Z) :
  awaiting_ack ser ->
  uint32 (now - last_event_time ser) <= S21_RESPONSE_TIMEOUT ->
  rx_uart ser = b :: rest ->
  b <> ACK -> b <> NAK ->
  service now ser =
    Some (Result.Error,
          mkSerial CommState.Cooldown S21_ERROR_TIMEOUT now
                   (response ser) (tx_uart ser) rest).
Proof.
  intros Hst Ht Hrx Hack Hnak. destruct ser as [st cl t resp tx rx].
  unfold awaiting_ack in Hst. cbn in Hst, Ht, Hrx. subst rx.
  apply Z.ltb_ge in Ht. apply Z.eqb_neq in Hack, Hnak.
  unfold service. serial_simpl.
  destruct Hst as [-> | ->]; rewrite Ht; cbn [read_available];
    unfold handle_rx; serial_simpl; rewrite Hack, Hnak; reflexivity.
Qed.

Lemma service_command_ack (now : Z) (ser : DaikinSerial) (rest : list Z) :
  comm_state ser = CommState.CommandAck ->
  uint32 (now - last_event_time ser) <= S21_RESPONSE_TIMEOUT ->
  rx_uart ser = ACK :: rest ->
  service now ser =
    Some (Result.Ack,
          mkSerial CommState.Cooldown S21_RESPONSE_TURNAROUND now
                   (response ser) (tx_uart ser) rest).
Proof.
  intros Hst Ht Hrx. destruct ser as [st cl t resp tx rx].
  cbn in Hst, Ht, Hrx. subst st rx.
  apply Z.ltb_ge in Ht. unfold service. serial_simpl.
  rewrite Ht; cbn [read_available]; unfold handle_rx; serial_simpl; reflexivity.
Qed.

Lemma service_query_reply (now : Z) (ser : DaikinSerial) (body : list Z) (checksum : Z) :
  comm_state ser = CommState.QueryAck ->
  uint32 (now - last_event_time ser) <= S21_RESPONSE_TIMEOUT ->
  response ser = [] ->
  rx_uart ser = ACK :: STX :: body ++ [checksum; ETX] ->
  ~ In ETX body ->
  checksum <> ETX ->
  (length body <= S21_MAX_COMMAND_SIZE + S21_PAYLOAD_SIZE)%nat ->
  checksum_ok (sum8 body) checksum = true ->
  service now ser =
    Some (Result.Ack,
          mkSerial CommState.Cooldown S21_RESPONSE_TURNAROUND now
                   body (tx_uart ser ++ [ACK]) []).
Proof.
  intros Hst Ht Hresp Hrx Hetx Hck Hlen Hok.
  destruct ser as [st cl t resp tx rx].
  cbn in Hst, Ht, Hresp, Hrx. subst st resp rx.
  apply Z.ltb_ge in Ht. unfold service. serial_simpl. rewrite Ht.
  cbn [read_available]. unfold handle_rx at 1. serial_simpl.
  rewrite Z.eqb_refl.
  unfold handle_rx at 1. serial_simpl.
  rewrite Z.eqb_refl.
  rewrite read_available_frame; auto.
Qed.

(** ** Scheduling *)

(** Reduce the setters of [DaikinS21] applied to a known record. *)
Ltac s21_simpl :=
  cbv beta iota zeta delta
      [serial_send set_serial set_queries set_current_query set_tx_command
       set_activate_climate set_activate_swing_mode set_refresh_state
       set_pending set_active set_temp_inside set_temp_outside set_temp_coil
       set_fan_rpm set_compressor_hz set_swing_vertical_angle
       set_support_RH set_support_Ra set_support_RG set_ready set_val_cache
       serial queries current_query tx_command activate_climate
       activate_swing_mode refresh_state pending active temp_inside temp_outside
       temp_coil fan_rpm compressor_hz swing_vertical_angle support_RH support_Ra
       support_RG ready debug_protocol val_cache].

Lemma rcode_at_0 (code : list Z) : rcode_at code 0 = Some (nth 0 code 0).
Proof.
  unfold rcode_at.
  destruct (Nat.ltb_spec 0 (S21_MAX_COMMAND_SIZE + 1)); [reflexivity | lia].
Qed.

Lemma rcode_at_1 (code : list Z) :
  (1 <= S21_MAX_COMMAND_SIZE)%nat -> rcode_at code 1 = Some (nth 1 code 0).
Proof.
  intros H. unfold rcode_at.
  destruct (Nat.ltb_spec 1 (S21_MAX_COMMAND_SIZE + 1)); [reflexivity | lia].
Qed.

Lemma parse_ack_bare (s : DaikinS21) :
  (strlen (tx_command s) <= S21_MAX_COMMAND_SIZE + 1)%nat ->
  response (serial s) = [] ->
  parse_ack s = dispatch (c_str (tx_command s)) [] s.
Proof.
  intros Hlen Hresp. unfold parse_ack.
  destruct (Nat.ltb_spec (S21_MAX_COMMAND_SIZE + 1) (strlen (tx_command s))); [lia|].
  rewrite Hresp. reflexivity.
Qed.

Lemma dispatch_D1 (payload : list Z) (s : DaikinS21) :
  (2 <= S21_MAX_COMMAND_SIZE)%nat ->
  dispatch (c_str "D1") payload s
  = Some (set_refresh_state true (set_activate_climate false s)).
Proof.
  intros H. unfold dispatch.
  rewrite rcode_at_0, rcode_at_1 by lia. reflexivity.
Qed.

Lemma handle_rx_not_idle (byte : Z) (s s' : DaikinSerial) :
  handle_rx byte s <> Some (Result.Idle, s').
Proof.
  unfold handle_rx. intros H.
  destruct (comm_state s);
    repeat match type of H with
           | context [if ?b then _ else _] => destruct b
           | context [match pop_back ?l with _ => _ end] =>
               destruct (pop_back l) as [[? ?]|]
           end;
    discriminate H.
Qed.

Lemma read_available_not_idle (now : Z) (avail : list Z) :
  forall s s', read_available now avail s <> Some (Result.Idle, s').
Proof.
  induction avail as [|b rest IH]; intros s s' H; cbn [read_available] in H.
  - discriminate H.
  - destruct (handle_rx b (set_last_event_time now (set_rx_uart rest s)))
      as [[r s1]|] eqn:E; [|discriminate H].
    destruct r; try discriminate H.
    + exact (IH _ _ H).
    + exact (handle_rx_not_idle _ _ _ E).
Qed.

(** [service] answers [Idle] on an idle link and on the tick that ends a
    cooldown, and then the link is idle and nothing else has changed. *)
Lemma service_idle_inv (now : Z) (ser0 ser : DaikinSerial) :
  service now ser0 = Some (Result.Idle, ser) ->
  ser = set_comm_state CommState.Idle ser0.
Proof.
  intros H. destruct ser0 as [st cl t resp tx rx].
  unfold service in H. cbn [comm_state last_event_time cooldown_length rx_uart] in H.
  destruct st;
    try (destruct (_ <? _);
         [discriminate H | exfalso; exact (read_available_not_idle _ _ _ _ H)]).
  - injection H as <-. reflexivity.
  - destruct (_ <? _); [|discriminate H]. injection H as <-. reflexivity.
Qed.

(** C5.  With a climate change pending and a scan in progress (cursor on
    the entry [q]), the frame sent on an idle tick -- a tick on which
    [service] reports [Idle], be the link idle already or a cooldown just
    over -- is the command [D1] with the pending settings, not the query
    [q].  The acknowledgment of that command clears the request and leaves
    pool and cursor as they were, and the next idle tick (no swing change
    pending) sends the query [q]. *)
Theorem climate_command_preempts_scan (t0 t1 t2 : Z) (s : DaikinS21)
    (ser : DaikinSerial) (q : string) :
  (2 <= S21_MAX_COMMAND_SIZE)%nat ->
  service t0 (serial s) = Some (Result.Idle, ser) ->
  activate_climate s = true ->
  nth_error (queries s) (current_query s) = Some q ->
  uint32 (t1 - t0) <= S21_RESPONSE_TIMEOUT ->
  exists s1 s2,
    loop t0 s = Some s1
    /\ tx_command s1 = "D1"%string
    /\ emitted (serial s) (serial s1)
       = wire_frame "D1" (Some (climate_payload (pending s)))
    /\ queries s1 = queries s
    /\ current_query s1 = current_query s
    /\ run [Receive [ACK]; Tick t1] s1 = Some s2
    /\ activate_climate s2 = false
    /\ queries s2 = queries s
    /\ current_query s2 = current_query s
    /\ (activate_swing_mode s = false ->
        (strlen q <= S21_MAX_COMMAND_SIZE)%nat ->
        forall ser2,
          service t2 (serial s2) = Some (Result.Idle, ser2) ->
          exists s3,
            loop t2 s2 = Some s3
            /\ tx_command s3 = q
            /\ emitted (serial s2) (serial s3) = wire_frame q None
            /\ current_query s3 = current_query s).
Proof.
  intros Hmax Hsvc Hact Hq Ht1.
  assert (Hlt : (current_query s < length (queries s))%nat).
  { apply nth_error_Some. rewrite Hq. discriminate. }
  pose proof (service_idle_inv _ _ _ Hsvc) as Hser.
  destruct s as [ser0 qs cq txc ac asw rf pe act ti to tc fr chz sva rh ra rg rdy dbg vc].
  destruct ser0 as [st cl t resp tx rx].
  cbn in Hsvc, Hser, Hact, Hq, Hlt. subst ac.
  revert Hser. serial_simpl. intros Hser. subst ser.
  eexists. eexists.
  split.
  { unfold loop. s21_simpl. rewrite Hsvc.
    cbn [bind fst snd]. unfold tx_next. s21_simpl.
    rewrite send_frame_idle by (reflexivity || (cbn; lia)).
    cbn [snd]. serial_simpl. reflexivity. }
  split; [reflexivity|].
  split; [unfold emitted; s21_simpl; cbn [tx_uart]; apply skipn_length_app|].
  split; [reflexivity|]. split; [reflexivity|].
  split.
  { cbn [run step bind]. s21_simpl. serial_simpl. cbn [app].
    unfold loop. s21_simpl.
    rewrite (service_command_ack _ _ []);
      [|reflexivity|exact Ht1|reflexivity].
    cbn [bind fst snd]. s21_simpl.
    rewrite parse_ack_bare; [|cbn; lia|reflexivity].
    s21_simpl. rewrite dispatch_D1 by assumption.
    s21_simpl. reflexivity. }
  split; [reflexivity|]. split; [reflexivity|]. split; [reflexivity|].
  intros Hsw Hlen ser2 Hsvc2. cbn in Hsw. subst asw.
  revert Hsvc2. s21_simpl. serial_simpl. intros Hsvc2.
  pose proof (service_idle_inv _ _ _ Hsvc2) as Hser2.
  revert Hser2. serial_simpl. intros Hser2. subst ser2.
  eexists. split.
  { unfold loop. s21_simpl. rewrite Hsvc2.
    cbn [bind fst snd]. unfold tx_next. s21_simpl.
    destruct (Nat.eqb_spec cq (length qs)) as [E|_]; [lia|].
    cbn [negb]. rewrite Hq. cbn [bind]. s21_simpl.
    rewrite send_frame_idle by (reflexivity || assumption).
    cbn [snd]. reflexivity. }
  split; [reflexivity|].
  split; [|reflexivity].
  unfold emitted. serial_simpl. apply skipn_length_app.
Qed.

(** ** Decoding *)

Lemma firstn_length_app {A : Type} (l1 l2 : list A) : firstn (length l1) (l1 ++ l2) = l1.
Proof. induction l1 as [|x l1 IH]; simpl; [reflexivity | rewrite IH; reflexivity]. Qed.

Lemma parse_ack_reply (s : DaikinS21) (code payload : list Z) :
  (strlen (tx_command s) <= S21_MAX_COMMAND_SIZE + 1)%nat ->
  response (serial s) = code ++ payload ->
  length code = strlen (tx_command s) ->
  code ++ payload <> [] ->
  (length payload <= S21_PAYLOAD_SIZE)%nat ->
  (current_query s < length (queries s))%nat ->
  parse_ack s = dispatch code payload (set_current_query (S (current_query s)) s).
Proof.
  intros Hmax Hresp Hcode Hne Hpay Hcq. unfold parse_ack.
  destruct (Nat.ltb_spec (S21_MAX_COMMAND_SIZE + 1) (strlen (tx_command s))); [lia|].
  rewrite Hresp.
  destruct (code ++ payload) as [|b bs] eqn:E; [contradiction|].
  rewrite <- E, <- Hcode, firstn_length_app, skipn_length_app.
  destruct (Nat.ltb_spec (length (code ++ payload)) (length code)) as [Hl|_].
  { rewrite length_app in Hl. lia. }
  destruct (Nat.ltb_spec S21_PAYLOAD_SIZE (length payload)); [lia|].
  destruct (Nat.ltb_spec (current_query s) (length (queries s))); [reflexivity | lia].
Qed.

Lemma dispatch_G1 (rcode : list Z) (p0 p1 p2 p3 : Z) (s : DaikinS21) :
  (1 <= S21_MAX_COMMAND_SIZE)%nat ->
  nth 0 rcode 0 = ch "G" ->
  nth 1 rcode 0 = ch "1" ->
  dispatch rcode [p0; p1; p2; p3] s
  = Some (set_ready (set_ready_basic (ready s))
            (set_active
               (mkSettings (p0 =? ch "1") p1 ((p2 - 28) * 5)
                  (if support_RG s then fan (active s) else p3)
                  (swing_v (active s)) (swing_h (active s))) s)).
Proof.
  intros Hmax H0 H1. unfold dispatch.
  rewrite rcode_at_0, rcode_at_1 by lia. cbn [bind]. rewrite H0, H1.
  rewrite !Z.eqb_refl. cbn [nth_error bind].
  destruct (support_RG s); reflexivity.
Qed.

(** C8 (amended).  With the query [F1] at the cursor and nothing else
    pending, an idle tick transmits [F1]; when the unit then replies [ACK],
    [STX], ['G' '1' '1' 'A' '0' '3'], the matching checksum and [ETX], the
    next tick acknowledges the frame and decodes it: [active.power_on] is
    true, [active.mode] is the mode with byte ['A'], the setpoint is 100
    tenths of a degree, and [active.fan] is the fan mode with byte ['3']
    unless [support_RG] is set. *)
Theorem basic_state_scenario (t0 t1 : Z) (s : DaikinS21) :
  (2 <= S21_MAX_COMMAND_SIZE)%nat ->
  comm_state (serial s) = CommState.Idle ->
  activate_climate s = false ->
  activate_swing_mode s = false ->
  nth_error (queries s) (current_query s) = Some "F1"%string ->
  uint32 (t1 - t0) <= S21_RESPONSE_TIMEOUT ->
  exists s',
    run [Tick t0; Receive (basic_state_reply (ch "G")); Tick t1] s = Some s'
    /\ emitted (serial s) (serial s') = wire_frame "F1" None ++ [ACK]
    /\ response (serial s') = basic_state_body (ch "G")
    /\ power_on (active s') = true
    /\ mode (active s') = ch "A"
    /\ setpoint (active s') = 100
    /\ (support_RG s = false -> fan (active s') = ch "3")
    /\ current_query s' = S (current_query s).
Proof.
  intros Hmax Hidle Hac Hsw Hq Ht1.
  assert (Hlt : (current_query s < length (queries s))%nat).
  { apply nth_error_Some. rewrite Hq. discriminate. }
  destruct s as [ser qs cq txc ac asw rf pe act ti to tc fr chz sva rh ra rg rdy dbg vc].
  cbn in Hidle, Hac, Hsw, Hq, Hlt. subst ac asw.
  eexists. split.
  { cbn [run step bind]. unfold loop at 1. s21_simpl.
    rewrite service_idle by assumption.
    cbn [bind fst snd]. unfold tx_next. s21_simpl.
    destruct (Nat.eqb_spec cq (length qs)) as [E|_]; [lia|].
    cbn [negb]. rewrite Hq. cbn [bind]. s21_simpl.
    rewrite send_frame_idle by (assumption || (cbn; lia)).
    cbn [snd bind]. s21_simpl. serial_simpl. cbn [app].
    unfold loop. s21_simpl.
    rewrite (service_query_reply t1 _ (basic_state_body (ch "G"))
               (frame_checksum (basic_state_body (ch "G"))));
      [ | reflexivity | exact Ht1 | reflexivity | reflexivity
        | cbv; intuition discriminate | cbv; discriminate
        | unfold S21_PAYLOAD_SIZE; cbn [length basic_state_body]; lia
        | apply checksum_ok_frame ].
    cbn [bind fst snd]. s21_simpl.
    rewrite (parse_ack_reply _ [ch "G"; ch "1"] [ch "1"; ch "A"; ch "0"; ch "3"]);
      [ | cbn; lia | reflexivity | reflexivity | discriminate
        | unfold S21_PAYLOAD_SIZE; cbn; lia | cbn; lia ].
    rewrite dispatch_G1; [| lia | reflexivity | reflexivity].
    reflexivity. }
  s21_simpl. cbn [power_on mode setpoint fan].
  split.
  { unfold emitted. serial_simpl. rewrite <- app_assoc. apply skipn_length_app. }
  split; [reflexivity|]. split; [reflexivity|]. split; [reflexivity|].
  split; [reflexivity|].
  split; [|reflexivity].
  cbn. intros ->. reflexivity.
Qed.

(** ** The capability flag [support_RG] *)

(** Split a hypothesis [H : f ... = Some _] along the [bind]s and [if]s of
    the function's body. *)
Ltac break_some H :=
  repeat (cbn [bind] in H;
          match type of H with
          | context [bind ?o _] =>
              destruct o eqn:?; cbn [bind] in H; [|discriminate H]
          | context [if ?b then _ else _] => destruct b eqn:?
          end).

Lemma report_changes_RG (rcode payload : list Z) (s : DaikinS21) :
  support_RG (report_changes rcode payload s) = support_RG s.
Proof.
  unfold report_changes. destruct (debug_protocol s); [|reflexivity].
  destruct (cache_index (until_nul rcode) (val_cache s)) as [prev cache].
  destruct (bytes_eq_dec prev payload); reflexivity.
Qed.

Lemma refine_queries_RG (s : DaikinS21) :
  support_RG (refine_queries s) = support_RG s.
Proof.
  unfold refine_queries.
  destruct (support_Ra s && support_RH s); [|reflexivity].
  destruct (negb _); reflexivity.
Qed.

Lemma dispatch_keeps_RG (rcode payload : list Z) (s s' : DaikinS21) :
  dispatch rcode payload s = Some s' ->
  support_RG s = true -> support_RG s' = true.
Proof.
  intros H Hrg. unfold dispatch in H. break_some H;
    injection H as <-; rewrite ?report_changes_RG;
    first [exact Hrg | reflexivity].
Qed.

Lemma parse_ack_keeps_RG (s s' : DaikinS21) :
  parse_ack s = Some s' -> support_RG s = true -> support_RG s' = true.
Proof.
  intros H Hrg. unfold parse_ack in H.
  destruct (S21_MAX_COMMAND_SIZE + 1 <? strlen (tx_command s))%nat; [discriminate|].
  destruct (response (serial s)) as [|b bs].
  - eapply dispatch_keeps_RG; eassumption.
  - break_some H; try discriminate.
    eapply dispatch_keeps_RG; [exact H | exact Hrg].
Qed.

Lemma tx_next_keeps_RG (now : Z) (s s' : DaikinS21) :
  tx_next now s = Some s' -> support_RG s = true -> support_RG s' = true.
Proof.
  intros H Hrg. unfold tx_next in H. break_some H;
    injection H as <-;
    first [ exact Hrg
          | change (support_RG (refine_queries (set_refresh_state false s)) = true);
            rewrite refine_queries_RG; exact Hrg ].
Qed.

Lemma handle_nak_keeps_RG (s s' : DaikinS21) :
  handle_nak s = Some s' -> support_RG s = true -> support_RG s' = true.
Proof.
  intros H Hrg. unfold handle_nak in H.
  destruct (nth_error (queries s) (current_query s)); [|discriminate].
  cbn [bind] in H. destruct (String.eqb (tx_command s) s0).
  - injection H as <-. exact Hrg.
  - eapply parse_ack_keeps_RG; eassumption.
Qed.

Lemma loop_keeps_RG (now : Z) (s s' : DaikinS21) :
  loop now s = Some s' -> support_RG s = true -> support_RG s' = true.
Proof.
  intros H Hrg. unfold loop in H.
  destruct (service now (serial s)) as [[result ser]|]; [|discriminate].
  cbn [bind fst snd] in H.
  destruct result.
  - injection H as <-. exact Hrg.
  - eapply tx_next_keeps_RG; [exact H | exact Hrg].
  - eapply parse_ack_keeps_RG; [exact H | exact Hrg].
  - eapply handle_nak_keeps_RG; [exact H | exact Hrg].
  - injection H as <-. exact Hrg.
  - injection H as <-. exact Hrg.
Qed.

Lemma step_keeps_RG (e : Event) (s s' : DaikinS21) :
  step e s = Some s' -> support_RG s = true -> support_RG s' = true.
Proof.
  intros H Hrg. destruct e; cbn [step] in H.
  - eapply loop_keeps_RG; eassumption.
  - injection H as <-. exact Hrg.
  - injection H as <-. exact Hrg.
  - injection H as <-. exact Hrg.
  - injection H as <-. exact Hrg.
Qed.

Lemma run_keeps_RG (es : list Event) :
  forall s s', run es s = Some s' -> support_RG s = true -> support_RG s' = true.
Proof.
  induction es as [|e es IH]; intros s s' H Hrg; cbn [run] in H.
  - injection H as <-. exact Hrg.
  - destruct (step e s) as [s1|] eqn:E; [|discriminate].
    cbn [bind] in H. eapply IH; [exact H|].
    eapply step_keeps_RG; eassumption.
Qed.

Lemma dispatch_SG (rcode : list Z) (p0 : Z) (rest : list Z) (s : DaikinS21) :
  (1 <= S21_MAX_COMMAND_SIZE)%nat ->
  nth 0 rcode 0 = ch "S" ->
  nth 1 rcode 0 = ch "G" ->
  dispatch rcode (p0 :: rest) s
  = Some (set_support_RG true (set_active (set_fan p0 (active s)) s)).
Proof.
  intros Hmax H0 H1. unfold dispatch.
  rewrite rcode_at_0, rcode_at_1 by lia. cbn [bind]. rewrite H0, H1.
  reflexivity.
Qed.

Lemma nth_nonzero_length (l : list Z) (i : nat) (v : Z) :
  nth i l 0 = v -> v <> 0 -> (i < length l)%nat.
Proof.
  intros H Hv. destruct (Nat.lt_ge_cases i (length l)) as [Hlt|Hge]; [exact Hlt|].
  rewrite nth_overflow in H by exact Hge. congruence.
Qed.

(** What a defined [parse_ack] has done on a non-empty response. *)
Lemma parse_ack_reply_inv (s s' : DaikinS21) (code payload : list Z) :
  parse_ack s = Some s' ->
  response (serial s) = code ++ payload ->
  length code = strlen (tx_command s) ->
  code ++ payload <> [] ->
  dispatch code payload (set_current_query (S (current_query s)) s) = Some s'.
Proof.
  intros H Hresp Hcode Hne. unfold parse_ack in H.
  destruct (S21_MAX_COMMAND_SIZE + 1 <? strlen (tx_command s))%nat; [discriminate|].
  rewrite Hresp in H.
  destruct (code ++ payload) as [|b bs] eqn:E; [contradiction|].
  rewrite <- E, <- Hcode, firstn_length_app, skipn_length_app in H.
  destruct (_ <? _)%nat; [discriminate|].
  destruct (_ <? _)%nat; [discriminate|].
  destruct (_ <? _)%nat; [exact H | discriminate].
Qed.

Lemma dispatch_G1_inv (rcode payload : list Z) (s s' : DaikinS21) :
  nth 0 rcode 0 = ch "G" ->
  nth 1 rcode 0 = ch "1" ->
  dispatch rcode payload s = Some s' ->
  support_RG s' = support_RG s
  /\ (support_RG s = true -> fan (active s') = fan (active s))
  /\ (support_RG s = false -> nth_error payload 3 = Some (fan (active s'))).
Proof.
  intros H0 H1 H. unfold dispatch, rcode_at in H. rewrite H0, H1 in H.
  destruct (0 <? _)%nat; [|discriminate]. cbn [bind] in H.
  change (ch "G" =? ch "G") with true in H. cbv iota in H.
  destruct (1 <? _)%nat; [|discriminate]. cbn [bind] in H.
  change (ch "1" =? ch "1") with true in H. cbv iota in H.
  destruct (nth_error payload 0) as [p0|]; [|discriminate]. cbn [bind] in H.
  destruct (nth_error payload 1) as [p1|]; [|discriminate]. cbn [bind] in H.
  destruct (nth_error payload 2) as [p2|]; [|discriminate]. cbn [bind] in H.
  destruct s as [ser qs cq txc ac asw rf pe act ti to tc fr chz sva rh ra rg rdy dbg vc].
  revert H. s21_simpl. destruct rg; cbn [negb bind].
  - intros H. injection H as <-. s21_simpl. cbn [fan].
    repeat split; try reflexivity. discriminate.
  - destruct (nth_error payload 3) as [p3|]; [|discriminate]. cbn [bind].
    intros H. injection H as <-. s21_simpl. cbn [fan set_fan].
    repeat split; try reflexivity. discriminate.
Qed.

Lemma dispatch_G1_some (rcode : list Z) (p0 p1 p2 : Z) (rest : list Z)
    (s : DaikinS21) :
  (1 <= S21_MAX_COMMAND_SIZE)%nat ->
  nth 0 rcode 0 = ch "G" ->
  nth 1 rcode 0 = ch "1" ->
  support_RG s = true \/ rest <> [] ->
  exists s', dispatch rcode (p0 :: p1 :: p2 :: rest) s = Some s'.
Proof.
  intros Hmax H0 H1 Hrg. unfold dispatch.
  rewrite rcode_at_0, rcode_at_1 by lia. cbn [bind]. rewrite H0, H1.
  change (ch "G" =? ch "G") with true. change (ch "1" =? ch "1") with true.
  cbv iota. cbn [nth_error bind].
  destruct (support_RG s); cbn [negb bind].
  - eexists. reflexivity.
  - destruct rest as [|p3 rest]; [destruct Hrg; [discriminate | contradiction]|].
    cbn [nth_error bind]. eexists. reflexivity.
Qed.

(** C9.  When the transport completes a fan-state response [SG], the tick
    that parses it sets [support_RG] and takes [active.fan] from its first
    payload byte.  From then on, through every later event, the flag stays
    set, and a tick that parses a basic-state response [G1] -- whatever
    the command and the payload -- leaves [active.fan] as it is (and does
    parse it when the payload has three or four bytes).  While
    [support_RG] is unset, the tick that parses a [G1] response sets
    [active.fan] to the fourth payload byte. *)
Theorem basic_state_fan_gated_by_RG :
  (forall (t_sg : Z) (s_sg : DaikinS21) (ser_sg : DaikinSerial)
          (code_sg : list Z) (f : Z) (rest_sg : list Z),
     service t_sg (serial s_sg) = Some (Result.Ack, ser_sg) ->
     response ser_sg = code_sg ++ f :: rest_sg ->
     length code_sg = strlen (tx_command s_sg) ->
     nth 0 code_sg 0 = ch "S" ->
     nth 1 code_sg 0 = ch "G" ->
     (strlen (tx_command s_sg) <= S21_MAX_COMMAND_SIZE + 1)%nat ->
     (length (f :: rest_sg) <= S21_PAYLOAD_SIZE)%nat ->
     (current_query s_sg < length (queries s_sg))%nat ->
     exists s0,
       loop t_sg s_sg = Some s0
       /\ support_RG s0 = true
       /\ fan (active s0) = f
       /\ forall (es : list Event) (s : DaikinS21) (now : Z) (ser : DaikinSerial)
                 (code payload : list Z),
            run es s0 = Some s ->
            service now (serial s) = Some (Result.Ack, ser) ->
            response ser = code ++ payload ->
            length code = strlen (tx_command s) ->
            nth 0 code 0 = ch "G" ->
            nth 1 code 0 = ch "1" ->
            (forall s', loop now s = Some s' ->
                        fan (active s') = fan (active s) /\ support_RG s' = true)
            /\ ((strlen (tx_command s) <= S21_MAX_COMMAND_SIZE + 1)%nat ->
                (3 <= length payload <= S21_PAYLOAD_SIZE)%nat ->
                (current_query s < length (queries s))%nat ->
                exists s', loop now s = Some s'))
  /\ (forall (now : Z) (s : DaikinS21) (ser : DaikinSerial) (code : list Z)
             (p0 p1 p2 p3 : Z),
        support_RG s = false ->
        service now (serial s) = Some (Result.Ack, ser) ->
        response ser = code ++ [p0; p1; p2; p3] ->
        length code = strlen (tx_command s) ->
        nth 0 code 0 = ch "G" ->
        nth 1 code 0 = ch "1" ->
        (strlen (tx_command s) <= S21_MAX_COMMAND_SIZE + 1)%nat ->
        (current_query s < length (queries s))%nat ->
        exists s',
          loop now s = Some s'
          /\ fan (active s') = p3
          /\ support_RG s' = false).
Proof.
  split.
  - intros t_sg s_sg ser_sg code_sg f rest_sg Hsvc Hresp Hcode HS HG Hlen Hpay Hcq.
    assert (Hmax : (1 <= S21_MAX_COMMAND_SIZE)%nat).
    { pose proof (nth_nonzero_length code_sg 1 _ HG ltac:(discriminate)). lia. }
    assert (Hs0 : loop t_sg s_sg
                  = Some (set_support_RG true
                            (set_active
                               (set_fan f (active s_sg))
                               (set_current_query (S (current_query s_sg))
                                  (set_serial ser_sg s_sg))))).
    { unfold loop. rewrite Hsvc. cbn [bind fst snd].
      rewrite (parse_ack_reply _ code_sg (f :: rest_sg));
        [ | exact Hlen | exact Hresp | exact Hcode
          | destruct code_sg; discriminate | exact Hpay | exact Hcq ].
      rewrite dispatch_SG; [reflexivity | exact Hmax | exact HS | exact HG]. }
    eexists. split; [exact Hs0|]. split; [reflexivity|]. split; [reflexivity|].
    intros es s now ser code payload Hrun Hsvc' Hresp' Hcode' H0 H1.
    pose proof (run_keeps_RG es _ s Hrun eq_refl) as Hrg.
    split.
    + intros s' Hloop. unfold loop in Hloop. rewrite Hsvc' in Hloop.
      cbn [bind fst snd] in Hloop.
      apply (parse_ack_reply_inv _ _ code payload) in Hloop;
        [ | exact Hresp' | exact Hcode' | destruct code; [discriminate H0 | discriminate] ].
      apply dispatch_G1_inv in Hloop; [ | exact H0 | exact H1 ].
      destruct Hloop as (Hsame & Hkeep & _).
      split; [exact (Hkeep Hrg) | rewrite Hsame; exact Hrg].
    + intros Hlen' Hpay' Hcq'.
      unfold loop. rewrite Hsvc'. cbn [bind fst snd].
      rewrite (parse_ack_reply _ code payload);
        [ | exact Hlen' | exact Hresp' | exact Hcode'
          | destruct code; [discriminate H0 | discriminate] | lia | exact Hcq' ].
      destruct payload as [|p0 [|p1 [|p2 rest]]]; cbn [length] in Hpay'; try lia.
      apply dispatch_G1_some; [ | exact H0 | exact H1 | left; exact Hrg ].
      pose proof (nth_nonzero_length code 1 _ H1 ltac:(discriminate)). lia.
  - intros now s ser code p0 p1 p2 p3 Hrg Hsvc Hresp Hcode H0 H1 Hlen Hcq.
    assert (Hmax : (1 <= S21_MAX_COMMAND_SIZE)%nat).
    { pose proof (nth_nonzero_length code 1 _ H1 ltac:(discriminate)). lia. }
    unfold loop. rewrite Hsvc. cbn [bind fst snd].
    rewrite (parse_ack_reply _ code [p0; p1; p2; p3]);
      [ | exact Hlen | exact Hresp | exact Hcode
        | destruct code; discriminate
        | unfold S21_PAYLOAD_SIZE; cbn [length]; lia | exact Hcq ].
    rewrite dispatch_G1; [ | exact Hmax | exact H0 | exact H1 ].
    eexists. split; [reflexivity|].
    destruct s as [ser0 qs cq txc ac asw rf pe act ti to tc fr chz sva rh ra rg rdy dbg vc].
    cbn in Hrg. subst rg. s21_simpl. cbn [fan]. split; reflexivity.
Qed.

(** ** The cursor read of [handle_nak] *)

Lemma uint32_sub_diag (t : Z) : uint32 (t - t) = 0.
Proof. rewrite Z.sub_diag. reflexivity. Qed.

(** C10.  [handle_nak] reads the pool entry at the cursor before it chooses
    a branch: with the cursor on a live entry the read succeeds and the
    branch is taken on its value, and with the cursor at the end of the
    pool the read has no value, whatever [tx_command] is.  The second case
    is reachable: after [setup], a garbled reply ends the scan (cursor at
    the end), a climate change is requested, the command [D1] is sent with
    no scan in progress, and the unit answers [NAK]. *)
Theorem handle_nak_reads_cursor (t0 t1 : Z) (s0 : DaikinS21)
    (power : bool) (mode_ : Z) (setpoint_ : float) (fan_mode : Z) :
  (2 <= S21_MAX_COMMAND_SIZE)%nat ->
  comm_state (serial s0) = CommState.Idle ->
  0 <= S21_RESPONSE_TIMEOUT ->
  S21_ERROR_TIMEOUT < uint32 (t1 - t0) ->
  (forall s, (current_query s < length (queries s))%nat ->
     exists q,
       nth_error (queries s) (current_query s) = Some q
       /\ handle_nak s =
            if String.eqb (tx_command s) q
            then Some (set_current_query (current_query s)
                         (set_queries (erase (current_query s) (queries s)) s))
            else parse_ack s)
  /\ (forall s, (length (queries s) <= current_query s)%nat -> handle_nak s = None)
  /\ exists s,
       run [Tick t0; Receive [0]; Tick t0;
            SetClimate power mode_ setpoint_ fan_mode; Tick t1;
            Receive [NAK]] (setup s0) = Some s
       /\ tx_command s = "D1"%string
       /\ comm_state (serial s) = CommState.CommandAck
       /\ rx_uart (serial s) = [NAK]
       /\ current_query s = length (queries s)
       /\ loop t1 s = None.
Proof.
  intros Hmax Hidle Hto Ht1.
  split; [|split].
  - intros s Hlt.
    destruct (nth_error (queries s) (current_query s)) as [q|] eqn:Hq.
    + exists q. split; [reflexivity|].
      unfold handle_nak. rewrite Hq. reflexivity.
    + apply nth_error_None in Hq. lia.
  - intros s Hge. unfold handle_nak.
    apply nth_error_None in Hge. rewrite Hge. reflexivity.
  - destruct s0 as [ser qs cq txc ac asw rf pe act ti to tc fr chz sva rh ra rg rdy dbg vc].
    cbn in Hidle. unfold setup. s21_simpl.
    destruct ac, asw;
      (eexists; split;
       [ cbn [run step bind]; unfold loop at 1; s21_simpl;
         rewrite service_idle by assumption;
         cbn [bind fst snd]; unfold tx_next; s21_simpl;
         cbn [length Nat.eqb negb nth_error bind]; s21_simpl;
         rewrite send_frame_idle by (assumption || (cbn; lia));
         cbn [snd]; serial_simpl; cbn [app];
         unfold loop at 1; s21_simpl;
         rewrite (service_reply_garbage t0 _ 0 []);
           [ | (left; reflexivity) || (right; reflexivity)
             | serial_simpl; rewrite uint32_sub_diag; exact Hto
             | reflexivity | discriminate | discriminate ];
         cbn [bind fst snd]; s21_simpl;
         unfold set_daikin_climate_settings; s21_simpl;
         unfold loop; s21_simpl;
         rewrite service_cooldown_over; [ | reflexivity | exact Ht1 ];
         cbn [bind fst snd]; unfold tx_next; s21_simpl;
         rewrite send_frame_idle by (reflexivity || (cbn; lia));
         cbn [snd]; serial_simpl; cbn [app];
         reflexivity
       | s21_simpl; serial_simpl;
         split; [reflexivity|]; split; [reflexivity|]; split; [reflexivity|];
         split; [reflexivity|];
         unfold loop; s21_simpl;
         rewrite (service_reply_nak t1 _ []);
           [ | right; reflexivity
             | serial_simpl; rewrite uint32_sub_diag; exact Hto
             | reflexivity ];
         reflexivity ]).
Qed.

(** ** Further properties of the codecs *)

(** X1.  For a setpoint of 0 to 113.6 degrees (in tenths),
    [c10_to_setpoint_byte] does not wrap, and decoding its byte the way the
    basic-state response is decoded, [(byte - 28) * 5], gives the setpoint
    brought to a multiple of 5 no more than 1 below and 3 above it -- the
    setpoint itself when it is a multiple of 5. *)
Theorem setpoint_byte_decodes (sp : Z) :
  0 <= sp <= 1136 ->
  28 <= c10_to_setpoint_byte sp <= 255
  /\ (c10_to_setpoint_byte sp - 28) * 5 = sp + 3 - (sp + 3) mod 5
  /\ sp - 1 <= (c10_to_setpoint_byte sp - 28) * 5 <= sp + 3
  /\ (sp mod 5 = 0 -> (c10_to_setpoint_byte sp - 28) * 5 = sp).
Proof.
  intros Hsp. unfold c10_to_setpoint_byte, uint8.
  rewrite Z.quot_div_nonneg by lia.
  assert (Hq : 0 <= (sp + 3) / 5 < 228).
  { split; [apply Z.div_pos; lia | apply Z.div_lt_upper_bound; lia]. }
  rewrite Z.mod_small by lia.
  pose proof (Z.div_mod (sp + 3) 5 ltac:(lia)) as Hdm.
  pose proof (Z.mod_pos_bound (sp + 3) 5 ltac:(lia)) as Hm.
  repeat split; try lia.
  intros H5.
  assert ((sp + 3) mod 5 = 3).
  { rewrite Z.add_mod, H5 by lia. reflexivity. }
  lia.
Qed.

(** X2.  [temp_f9_byte_to_c10] drops the low bit of its byte: the bytes
    [2k] and [2k+1] both decode to the whole degree [k - 64], in tenths,
    without wrapping. *)
Theorem temp_f9_ignores_low_bit (k : Z) :
  0 <= k <= 127 ->
  temp_f9_byte_to_c10 (2 * k) = (k - 64) * 10
  /\ temp_f9_byte_to_c10 (2 * k + 1) = (k - 64) * 10.
Proof.
  intros Hk. unfold temp_f9_byte_to_c10.
  rewrite !Z.quot_div_nonneg by lia.
  replace (2 * k / 2) with k by (apply Z.div_unique with 0; lia).
  replace ((2 * k + 1) / 2) with k by (apply Z.div_unique with 1; lia).
  rewrite int16_small by lia. split; reflexivity.
Qed.

(** X3.  On bytes, the [int16_t] accumulator of [bytes_to_num] never
    wraps: the result is [(b0-'0') + 10 (b1-'0') + 100 (b2-'0')], negated
    when [len > 3] and the fourth byte is ['-']; with [len <= 3] the fourth
    byte is not looked at. *)
Theorem bytes_to_num_exact (b0 b1 b2 b3 : Z) (len : nat) :
  0 <= b0 <= 255 -> 0 <= b1 <= 255 -> 0 <= b2 <= 255 ->
  let m := (b0 - ch "0") + 10 * (b1 - ch "0") + 100 * (b2 - ch "0") in
  bytes_to_num [b0; b1; b2; b3] len
  = Some (if (3 <? len)%nat && (b3 =? ch "-") then - m else m)
  /\ ((len <= 3)%nat -> bytes_to_num [b0; b1; b2] len = Some m).
Proof.
  intros H0 H1 H2 m. subst m.
  unfold bytes_to_num. cbn [nth_error].
  change (ch "0") with 48.
  rewrite (int16_small (b0 - 48)) by lia.
  rewrite (int16_small (b0 - 48 + _)) by lia.
  rewrite (int16_small (b0 - 48 + _ + _)) by lia.
  split.
  - destruct (3 <? len)%nat; cbn [andb].
    + destruct (b3 =? ch "-").
      * rewrite int16_small by lia. f_equal. lia.
      * f_equal. lia.
    + f_equal. lia.
  - intros Hlen. destruct (Nat.ltb_spec 3 len); [lia|]. f_equal. lia.
Qed.


(** ** Further properties of the transport *)

(** X4.  One byte handled in a receiving state: [Busy] keeps the link
    receiving; [Ack] and [Nak] put it in [Cooldown] for the turnaround
    interval and [Error] for the error interval; no other result occurs.
    The unread input and the time stamp are left alone, and the only byte
    ever written is the [ACK] that answers a frame whose checksum has been
    validated. *)
Theorem handle_rx_outcome (byte : Z) (s s' : DaikinSerial) (res : Result.t) :
  receiving (comm_state s) = true ->
  handle_rx byte s = Some (res, s') ->
  match res with
  | Result.Busy => receiving (comm_state s') = true
  | Result.Ack | Result.Nak =>
      comm_state s' = CommState.Cooldown
      /\ cooldown_length s' = S21_RESPONSE_TURNAROUND
  | Result.Error =>
      comm_state s' = CommState.Cooldown
      /\ cooldown_length s' = S21_ERROR_TIMEOUT
  | Result.Idle | Result.Timeout => False
  end
  /\ rx_uart s' = rx_uart s
  /\ last_event_time s' = last_event_time s
  /\ tx_uart s' = tx_uart s ++ match res, comm_state s with
                               | Result.Ack, CommState.QueryEtx => [ACK]
                               | _, _ => []
                               end.
Proof.
  intros Hrecv H. destruct s as [st cl t resp tx rx].
  unfold handle_rx in H. serial_simpl_in H. cbn [comm_state] in Hrecv.
  destruct st; try discriminate Hrecv.
  - destruct (byte =? ACK); [|destruct (byte =? NAK)];
      injection H as <- <-; serial_simpl; rewrite app_nil_r; auto.
  - destruct (byte =? ACK); [|destruct (byte =? NAK)];
      injection H as <- <-; serial_simpl; rewrite app_nil_r; auto.
  - destruct (byte =? STX); [|destruct (byte =? ACK)];
      injection H as <- <-; serial_simpl; rewrite app_nil_r; auto.
  - destruct (negb (byte =? ETX)).
    + destruct (_ <? _)%nat; injection H as <- <-; serial_simpl;
        rewrite app_nil_r; auto.
    + destruct (pop_back resp) as [[body checksum]|]; [|discriminate H].
      destruct (checksum_ok _ checksum); injection H as <- <-; serial_simpl;
        rewrite ?app_nil_r; auto.
Qed.

Lemma handle_rx_in_bounds (byte : Z) (s s' : DaikinSerial) (res : Result.t) :
  response_in_bounds s ->
  handle_rx byte s = Some (res, s') ->
  response_in_bounds s'
  /\ (res = Result.Ack ->
      (length (response s') <= S21_MAX_COMMAND_SIZE + S21_PAYLOAD_SIZE)%nat).
Proof.
  intros Hb H. destruct s as [st cl t resp tx rx].
  unfold response_in_bounds in *. unfold handle_rx in H.
  serial_simpl_in H. cbn [comm_state response] in Hb.
  destruct st.
  - injection H as <- <-. serial_simpl. split; [exact Hb | discriminate].
  - subst resp.
    destruct (byte =? ACK); [|destruct (byte =? NAK)];
      injection H as <- <-; serial_simpl; cbn [length];
      split; try reflexivity; try lia; try discriminate.
  - subst resp.
    destruct (byte =? ACK); [|destruct (byte =? NAK)];
      injection H as <- <-; serial_simpl; cbn [length];
      split; try reflexivity; try lia; try discriminate.
  - subst resp.
    destruct (byte =? STX); [|destruct (byte =? ACK)];
      injection H as <- <-; serial_simpl; cbn [length];
      split; try reflexivity; try lia; try discriminate.
  - destruct (negb (byte =? ETX)).
    + destruct (Nat.ltb_spec (S21_MAX_COMMAND_SIZE + S21_PAYLOAD_SIZE + 1)
                  (length (resp ++ [byte]))) as [Hover|Hfit];
        injection H as <- <-; serial_simpl;
        (split; [|discriminate]).
      * rewrite length_app in *. cbn [length] in *. lia.
      * exact Hfit.
    + destruct (pop_back resp) as [[body checksum]|] eqn:E; [|discriminate H].
      apply pop_back_inv in E. subst resp.
      rewrite length_app in Hb. cbn [length] in Hb.
      destruct (checksum_ok _ checksum); injection H as <- <-; serial_simpl;
        split; try lia; try discriminate.
  - injection H as <- <-. serial_simpl. split; [exact Hb | discriminate].
Qed.

Lemma response_in_bounds_input (now : Z) (rx : list Z) (s : DaikinSerial) :
  response_in_bounds s ->
  response_in_bounds (set_last_event_time now (set_rx_uart rx s)).
Proof. destruct s. unfold response_in_bounds. serial_simpl. auto. Qed.

Lemma read_available_in_bounds (now : Z) (avail : list Z) :
  forall s s' res,
    response_in_bounds s ->
    read_available now avail s = Some (res, s') ->
    response_in_bounds s'
    /\ (res = Result.Ack ->
        (length (response s') <= S21_MAX_COMMAND_SIZE + S21_PAYLOAD_SIZE)%nat).
Proof.
  induction avail as [|b rest IH]; intros s s' res Hb H; cbn [read_available] in H.
  - injection H as <- <-. split; [exact Hb | discriminate].
  - destruct (handle_rx b (set_last_event_time now (set_rx_uart rest s)))
      as [[r s1]|] eqn:E; [|discriminate H].
    apply handle_rx_in_bounds in E; [|apply response_in_bounds_input; exact Hb].
    destruct r; try (injection H as <- <-; exact E).
    eapply IH; [exact (proj1 E) | exact H].
Qed.

(** X5.  The bounds on the response buffer are kept by [send_frame] and by
    [service], whatever bytes arrive; and a reply that [service] reports as
    [Ack] holds at most [S21_MAX_COMMAND_SIZE + S21_PAYLOAD_SIZE] bytes. *)
Theorem response_stays_in_bounds (now : Z) (s : DaikinSerial) :
  response_in_bounds s ->
  (forall cmd payload, response_in_bounds (snd (send_frame now cmd payload s)))
  /\ (forall res s',
        service now s = Some (res, s') ->
        response_in_bounds s'
        /\ (res = Result.Ack ->
            (length (response s') <= S21_MAX_COMMAND_SIZE + S21_PAYLOAD_SIZE)%nat)).
Proof.
  intros Hb. split.
  - intros cmd payload. destruct s as [st cl t resp tx rx].
    unfold send_frame. serial_simpl.
    destruct st; try exact Hb.
    destruct (_ <? _)%nat; [exact Hb|].
    unfold response_in_bounds. serial_simpl.
    destruct payload; reflexivity.
  - intros res s' H. destruct s as [st cl t resp tx rx].
    unfold service in H. cbn [comm_state last_event_time cooldown_length rx_uart] in H.
    destruct st;
      try (destruct (_ <? _);
           [ injection H as <- <-; split; [|discriminate];
             unfold response_in_bounds in *; revert Hb; serial_simpl;
             intros Hb; try subst resp; cbn [length]; lia
           | eapply read_available_in_bounds; eassumption ]).
    + injection H as <- <-. split; [exact Hb | discriminate].
    + destruct (_ <? _); injection H as <- <-; (split; [|discriminate]).
      * unfold response_in_bounds in *. revert Hb. serial_simpl. auto.
      * exact Hb.
Qed.


Lemma uint32_elapsed (last d : Z) :
  0 <= d < 4294967296 -> uint32 (uint32 (last + d) - last) = d.
Proof.
  intros Hd. unfold uint32. rewrite Zminus_mod_idemp_l.
  replace (last + d - last) with d by lia. apply Z.mod_small. exact Hd.
Qed.

(** X6.  The timers compare differences of 32-bit millisecond counts, so
    they are not disturbed when [millis()] rolls over: [d] milliseconds
    after the last event, a cooldown is over exactly when [d] exceeds its
    length, and a receiving link times out as soon as [d] exceeds the
    response timeout. *)
Theorem timers_survive_rollover (s : DaikinSerial) (d : Z) :
  0 <= d < 4294967296 ->
  (comm_state s = CommState.Cooldown ->
   service (uint32 (last_event_time s + d)) s
   = Some (if cooldown_length s <? d
           then (Result.Idle, set_comm_state CommState.Idle s)
           else (Result.Busy, s)))
  /\ (receiving (comm_state s) = true ->
      S21_RESPONSE_TIMEOUT < d ->
      service (uint32 (last_event_time s + d)) s
      = Some (Result.Timeout, set_comm_state CommState.Idle s)).
Proof.
  intros Hd. split.
  - intros Hst. unfold service. rewrite Hst, uint32_elapsed by exact Hd.
    destruct (cooldown_length s <? d); reflexivity.
  - intros Hrecv Hto. unfold service. rewrite uint32_elapsed by exact Hd.
    apply Z.ltb_lt in Hto. rewrite Hto.
    destruct (comm_state s); try discriminate Hrecv; reflexivity.
Qed.

Lemma read_available_frame_checked (now : Z) (body : list Z) :
  forall resp cl t tx rx checksum,
    ~ In ETX body ->
    checksum <> ETX ->
    (length resp + length body <= S21_MAX_COMMAND_SIZE + S21_PAYLOAD_SIZE)%nat ->
    read_available now (body ++ [checksum; ETX])
        (mkSerial CommState.QueryEtx cl t resp tx rx)
    = Some (if checksum_ok (sum8 (resp ++ body)) checksum
            then (Result.Ack,
                  mkSerial CommState.Cooldown S21_RESPONSE_TURNAROUND now
                           (resp ++ body) (tx ++ [ACK]) [])
            else (Result.Error,
                  mkSerial CommState.Cooldown S21_ERROR_TIMEOUT now
                           (resp ++ body) tx [])).
Proof.
  induction body as [|b body IH]; intros resp cl t tx rx checksum Hetx Hck Hlen.
  - rewrite app_nil_r. cbn [app read_available].
    rewrite handle_rx_push; [|reflexivity|assumption|cbn in *; lia].
    serial_simpl.
    rewrite (handle_rx_etx resp checksum); [|reflexivity|reflexivity].
    destruct (checksum_ok (sum8 resp) checksum); reflexivity.
  - cbn [app read_available].
    rewrite handle_rx_push;
      [|reflexivity|intros ->; apply Hetx; left; reflexivity|cbn in *; lia].
    serial_simpl.
    rewrite IH.
    + rewrite <- app_assoc. reflexivity.
    + intros Hin. apply Hetx. right. exact Hin.
    + assumption.
    + rewrite length_app. cbn in *. lia.
Qed.

(** X7.  Extra [ACK] bytes between the acknowledgment of a query and the
    [STX] of its reply are skipped: the frame that follows is received as
    if they were not there. *)
Theorem extra_acks_ignored (now : Z) (n : nat) (body : list Z) (checksum : Z) :
  forall cl t tx rx,
    ~ In ETX body ->
    checksum <> ETX ->
    (length body <= S21_MAX_COMMAND_SIZE + S21_PAYLOAD_SIZE)%nat ->
    checksum_ok (sum8 body) checksum = true ->
    read_available now (repeat ACK n ++ STX :: body ++ [checksum; ETX])
        (mkSerial CommState.QueryStx cl t [] tx rx)
    = Some (Result.Ack,
            mkSerial CommState.Cooldown S21_RESPONSE_TURNAROUND now
                     body (tx ++ [ACK]) []).
Proof.
  induction n as [|n IH]; intros cl t tx rx Hetx Hck Hlen Hok.
  - cbn [repeat app read_available]. unfold handle_rx at 1. serial_simpl.
    rewrite Z.eqb_refl.
    rewrite read_available_frame_checked by assumption.
    cbn [app]. rewrite Hok. reflexivity.
  - cbn [repeat app read_available]. unfold handle_rx at 1. serial_simpl.
    change (ACK =? STX) with false. rewrite Z.eqb_refl.
    apply IH; assumption.
Qed.

(** X8.  A reply whose checksum byte matches neither the recomputed sum
    nor the escape rule is rejected: [service] reports [Error], enters the
    error cooldown and writes no [ACK]. *)
Theorem corrupt_frame_rejected (now : Z) (ser : DaikinSerial) (body : list Z)
    (checksum : Z) :
  comm_state ser = CommState.QueryAck ->
  uint32 (now - last_event_time ser) <= S21_RESPONSE_TIMEOUT ->
  response ser = [] ->
  rx_uart ser = ACK :: STX :: body ++ [checksum; ETX] ->
  ~ In ETX body ->
  checksum <> ETX ->
  (length body <= S21_MAX_COMMAND_SIZE + S21_PAYLOAD_SIZE)%nat ->
  checksum_ok (sum8 body) checksum = false ->
  service now ser
  = Some (Result.Error,
          mkSerial CommState.Cooldown S21_ERROR_TIMEOUT now body (tx_uart ser) []).
Proof.
  intros Hst Ht Hresp Hrx Hetx Hck Hlen Hbad.
  destruct ser as [st cl t resp tx rx].
  cbn in Hst, Ht, Hresp, Hrx. subst st resp rx.
  apply Z.ltb_ge in Ht. unfold service. serial_simpl. rewrite Ht.
  cbn [read_available]. unfold handle_rx at 1. serial_simpl.
  rewrite Z.eqb_refl.
  unfold handle_rx at 1. serial_simpl.
  rewrite Z.eqb_refl.
  rewrite read_available_frame_checked by assumption.
  cbn [app]. rewrite Hbad. reflexivity.
Qed.


(** ** Further properties of the session *)

Lemma report_changes_is_set (rcode payload : list Z) (s : DaikinS21) :
  exists c, report_changes rcode payload s = set_val_cache c s
            /\ (debug_protocol s = false -> c = val_cache s).
Proof.
  unfold report_changes. destruct (debug_protocol s).
  - destruct (cache_index (until_nul rcode) (val_cache s)) as [prev cache].
    destruct (bytes_eq_dec prev payload); eexists; (split; [reflexivity|discriminate]).
  - exists (val_cache s). split; [destruct s; reflexivity | reflexivity].
Qed.

Lemma erase_length_id {A : Type} (l : list A) : erase (length l) l = l.
Proof.
  unfold erase. rewrite firstn_all, skipn_all2 by (cbn; lia). apply app_nil_r.
Qed.

Lemma find_query_cons (q x : string) (l : list string) :
  find_query q (x :: l) = if String.eqb x q then 0%nat else S (find_query q l).
Proof. reflexivity. Qed.

Lemma filter_other (q : string) (l : list string) :
  ~ In q l -> filter (fun x => negb (String.eqb x q)) l = l.
Proof.
  induction l as [|x l IH]; intros Hq; [reflexivity|].
  cbn [filter]. destruct (String.eqb_spec x q) as [-> | _].
  - exfalso. apply Hq. left. reflexivity.
  - cbn [negb]. rewrite IH; [reflexivity|].
    intros Hin. apply Hq. right. exact Hin.
Qed.

Lemma erase_first_filter (q : string) (l : list string) :
  NoDup l ->
  (if negb (find_query q l =? length l)%nat then erase (find_query q l) l else l)
  = filter (fun x => negb (String.eqb x q)) l.
Proof.
  induction l as [|x l IH]; intros Hnd; [reflexivity|].
  inversion Hnd as [|? ? Hx Hl]; subst.
  rewrite find_query_cons. cbn [filter length].
  destruct (String.eqb_spec x q) as [-> | Hne]; cbn [negb].
  - cbn [Nat.eqb negb]. unfold erase. cbn [firstn skipn app].
    symmetry. apply filter_other. exact Hx.
  - cbn [Nat.eqb]. specialize (IH Hl).
    destruct (negb (find_query q l =? length l)%nat).
    + rewrite erase_cons_S, IH. reflexivity.
    + f_equal. exact IH.
Qed.

(** X9.  [refine_queries] leaves the session alone unless both
    [support_Ra] and [support_RH] are set; when they are, it removes the
    query [F9] from a pool of unique codes and keeps every other query in
    its place and order.  Nothing but the pool is changed. *)
Theorem refine_queries_drops_F9 (s : DaikinS21) :
  (support_Ra s && support_RH s = false -> refine_queries s = s)
  /\ (support_Ra s && support_RH s = true ->
      NoDup (queries s) ->
      refine_queries s
      = set_queries (filter (fun q => negb (String.eqb q "F9")) (queries s)) s).
Proof.
  unfold refine_queries. split; intros Hflags.
  - rewrite Hflags. reflexivity.
  - intros Hnd. rewrite Hflags.
    pose proof (erase_first_filter "F9" (queries s) Hnd) as H.
    destruct (negb (find_query "F9" (queries s) =? length (queries s))%nat).
    + rewrite H. reflexivity.
    + rewrite <- H. destruct s; reflexivity.
Qed.

(** X10.  [tx_next] starts a fresh scan without looking whether the pool
    has an entry: with nothing else to send, a refresh requested and a pool
    that is empty (or holds only an [F9] about to be removed), it reads the
    first entry of an empty vector. *)
Theorem fresh_scan_on_empty_pool (now : Z) (s : DaikinS21) :
  comm_state (serial s) = CommState.Idle ->
  activate_climate s = false ->
  activate_swing_mode s = false ->
  current_query s = length (queries s) ->
  refresh_state s = true ->
  queries s = []
  \/ (queries s = ["F9"%string] /\ support_Ra s = true /\ support_RH s = true) ->
  loop now s = None.
Proof.
  intros Hidle Hac Hsw Hcq Hrf Hpool.
  destruct s as [ser qs cq txc ac asw rf pe act ti to tc fr chz sva rh ra rg rdy dbg vc].
  cbn in Hidle, Hac, Hsw, Hcq, Hrf, Hpool. subst ac asw rf cq.
  unfold loop. s21_simpl. rewrite service_idle by assumption.
  cbn [bind fst snd]. unfold tx_next. s21_simpl.
  rewrite Nat.eqb_refl. cbn [negb].
  unfold refine_queries. s21_simpl.
  destruct Hpool as [-> | (-> & -> & ->)].
  - destruct (ra && rh); reflexivity.
  - reflexivity.
Qed.

Lemma setpoint_byte_value (sp : Z) :
  0 <= sp <= 1136 -> c10_to_setpoint_byte sp = (sp + 3) / 5 + 28.
Proof.
  intros Hsp. unfold c10_to_setpoint_byte, uint8.
  rewrite Z.quot_div_nonneg by lia.
  apply Z.mod_small.
  assert (0 <= (sp + 3) / 5 < 228); [|lia].
  split; [apply Z.div_pos; lia | apply Z.div_lt_upper_bound; lia].
Qed.

(** X11.  What [tx_next] encodes in the command [D1] is what the decoder
    of the basic-state response reads back: a payload built from pending
    settings (mode and fan bytes, a setpoint of 0 to 113.6 degrees),
    decoded under [G1] while [support_RG] is unset, gives the same power,
    mode and fan, and the setpoint brought to a multiple of 5. *)
Theorem climate_payload_decodes (p : DaikinSettings float) (rcode : list Z)
    (s : DaikinS21) :
  (1 <= S21_MAX_COMMAND_SIZE)%nat ->
  nth 0 rcode 0 = ch "G" ->
  nth 1 rcode 0 = ch "1" ->
  0 <= mode p <= 255 ->
  0 <= fan p <= 255 ->
  0 <= int16 (round_c10 (setpoint p)) <= 1136 ->
  support_RG s = false ->
  exists s',
    dispatch rcode (climate_payload p) s = Some s'
    /\ power_on (active s') = power_on p
    /\ mode (active s') = mode p
    /\ fan (active s') = fan p
    /\ setpoint (active s')
       = 5 * ((int16 (round_c10 (setpoint p)) + 3) / 5)
    /\ swing_v (active s') = swing_v (active s)
    /\ swing_h (active s') = swing_h (active s).
Proof.
  intros Hmax H0 H1 Hmode Hfan Hsp Hrg.
  unfold climate_payload. rewrite dispatch_G1 by assumption.
  eexists. split; [reflexivity|].
  destruct s as [ser qs cq txc ac asw rf pe act ti to tc fr chz sva rh ra rg rdy dbg vc].
  cbn in Hrg. subst rg. s21_simpl. cbn [power_on mode fan setpoint swing_v swing_h].
  unfold uint8. rewrite !Z.mod_small by lia.
  rewrite setpoint_byte_value by exact Hsp.
  repeat split.
  - destruct (power_on p); reflexivity.
  - lia.
Qed.

Lemma active_report_changes (rcode payload : list Z) (s : DaikinS21) :
  active (report_changes rcode payload s) = active s.
Proof.
  destruct (report_changes_is_set rcode payload s) as (c & -> & _). reflexivity.
Qed.

(** X12.  The first byte of the command [D5] built from pending swing
    settings, decoded the way the swing response [G5] is decoded, gives
    back both swing flags; the rest of the active settings is untouched. *)
Theorem swing_payload_decodes (p : DaikinSettings float) (rcode : list Z)
    (s : DaikinS21) :
  (1 <= S21_MAX_COMMAND_SIZE)%nat ->
  nth 0 rcode 0 = ch "G" ->
  nth 1 rcode 0 = ch "5" ->
  exists s',
    dispatch rcode (swing_payload p) s = Some s'
    /\ swing_v (active s') = swing_v p
    /\ swing_h (active s') = swing_h p
    /\ power_on (active s') = power_on (active s)
    /\ mode (active s') = mode (active s)
    /\ setpoint (active s') = setpoint (active s)
    /\ fan (active s') = fan (active s).
Proof.
  intros Hmax H0 H1. unfold dispatch.
  rewrite rcode_at_0, rcode_at_1 by lia. cbn [bind]. rewrite H0, H1.
  change (ch "G" =? ch "G") with true. change (ch "5" =? ch "1") with false.
  change (ch "5" =? ch "5") with true. cbv iota.
  unfold swing_payload. cbn [nth_error bind].
  eexists. split; [reflexivity|].
  rewrite active_report_changes.
  destruct s as [ser qs cq txc ac asw rf pe act ti to tc fr chz sva rh ra rg rdy dbg vc].
  s21_simpl. cbn [power_on mode fan setpoint swing_v swing_h].
  destruct (swing_h p), (swing_v p); repeat split; reflexivity.
Qed.

(** X13.  A NAK for a command is not retried: with the cursor on a query,
    [handle_nak] treats the rejected [D1] (or [D5]) like an acknowledged
    one, clearing its activation flag and requesting a refresh, and changes
    nothing else. *)
Theorem nak_on_command_drops_it (s : DaikinS21) (q : string) :
  (2 <= S21_MAX_COMMAND_SIZE)%nat ->
  nth_error (queries s) (current_query s) = Some q ->
  q <> "D1"%string -> q <> "D5"%string ->
  response (serial s) = [] ->
  (tx_command s = "D1"%string ->
   handle_nak s = Some (set_refresh_state true (set_activate_climate false s)))
  /\ (tx_command s = "D5"%string ->
      handle_nak s = Some (set_refresh_state true (set_activate_swing_mode false s))).
Proof.
  intros Hmax Hq Hq1 Hq5 Hresp.
  split; intros Htx; unfold handle_nak; rewrite Hq; cbn [bind]; rewrite Htx.
  - destruct (String.eqb_spec "D1" q) as [E|_]; [subst q; contradiction|].
    rewrite parse_ack_bare; [|rewrite Htx; cbn; lia|exact Hresp].
    rewrite Htx. apply dispatch_D1. exact Hmax.
  - destruct (String.eqb_spec "D5" q) as [E|_]; [subst q; contradiction|].
    rewrite parse_ack_bare; [|rewrite Htx; cbn; lia|exact Hresp].
    rewrite Htx. unfold dispatch.
    rewrite rcode_at_0, rcode_at_1 by lia. reflexivity.
Qed.


(** ** What the decoder and the scheduler keep *)

Lemma dispatch_scheduling (rcode payload : list Z) (s s' : DaikinS21) :
  dispatch rcode payload s = Some s' ->
  serial s' = serial s
  /\ queries s' = queries s
  /\ current_query s' = current_query s
  /\ tx_command s' = tx_command s
  /\ pending s' = pending s
  /\ debug_protocol s' = debug_protocol s
  /\ (debug_protocol s = false -> val_cache s' = val_cache s).
Proof.
  intros H. unfold dispatch in H. break_some H; injection H as <-;
    try match goal with
        | |- context [report_changes ?r ?p ?x] =>
            destruct (report_changes_is_set r p x) as (c & -> & Hc)
        end;
    repeat split; try reflexivity;
    intros Hd; first [exact (Hc Hd) | reflexivity].
Qed.

Lemma parse_ack_scheduling (s s' : DaikinS21) :
  parse_ack s = Some s' ->
  serial s' = serial s
  /\ queries s' = queries s
  /\ tx_command s' = tx_command s
  /\ pending s' = pending s
  /\ current_query s'
     = match response (serial s) with
       | [] => current_query s
       | _ :: _ => S (current_query s)
       end
  /\ (current_query s' <= length (queries s')
      \/ response (serial s) = [])%nat
  /\ debug_protocol s' = debug_protocol s
  /\ (debug_protocol s = false -> val_cache s' = val_cache s).
Proof.
  intros H. unfold parse_ack in H.
  destruct (S21_MAX_COMMAND_SIZE + 1 <? strlen (tx_command s))%nat; [discriminate|].
  destruct (response (serial s)) as [|b bs] eqn:Hresp.
  - apply dispatch_scheduling in H.
    destruct H as (H1 & H2 & H3 & H4 & H5 & H6 & H7).
    repeat split; try assumption. right. reflexivity.
  - destruct (_ <? _)%nat; [discriminate|].
    destruct (_ <? _)%nat; [discriminate|].
    destruct (Nat.ltb_spec (current_query s) (length (queries s))) as [Hlt|_];
      [|discriminate].
    apply dispatch_scheduling in H.
    destruct H as (H1 & H2 & H3 & H4 & H5 & H6 & H7).
    repeat split; try assumption.
    left. rewrite H2, H3. exact Hlt.
Qed.

Lemma parse_ack_kept (s s' : DaikinS21) :
  parse_ack s = Some s' -> session_kept s s'.
Proof.
  intros H. apply parse_ack_scheduling in H.
  destruct H as (_ & Hq & _ & _ & Hcq & Hin & Hd & Hv).
  unfold session_kept. repeat split; try assumption.
  intros Hle. destruct Hin as [Hin | Hempty]; [exact Hin|].
  rewrite Hempty in Hcq. rewrite Hcq, Hq. exact Hle.
Qed.

Lemma refine_queries_is_set (s : DaikinS21) :
  exists l, refine_queries s = set_queries l s.
Proof.
  unfold refine_queries. destruct (support_Ra s && support_RH s).
  - destruct (negb _); eexists; [reflexivity|].
    instantiate (1 := queries s). destruct s; reflexivity.
  - exists (queries s). destruct s; reflexivity.
Qed.

Lemma tx_next_kept (now : Z) (s s' : DaikinS21) :
  tx_next now s = Some s' -> session_kept s s'.
Proof.
  intros H. unfold tx_next in H. unfold session_kept.
  break_some H; injection H as <-;
    try (destruct (refine_queries_is_set (set_refresh_state false s)) as [l ->]);
    repeat split; try reflexivity; try (intros Hle; exact Hle).
  intros _. apply Nat.le_0_l.
Qed.

Lemma handle_nak_kept (s s' : DaikinS21) :
  handle_nak s = Some s' -> session_kept s s'.
Proof.
  intros H. unfold handle_nak in H.
  destruct (nth_error (queries s) (current_query s)) as [q|] eqn:Hq; [|discriminate].
  cbn [bind] in H. destruct (String.eqb (tx_command s) q).
  - injection H as <-. unfold session_kept.
    repeat split; try reflexivity.
    intros _.
    assert (Hlt : (current_query s < length (queries s))%nat).
    { apply nth_error_Some. rewrite Hq. discriminate. }
    pose proof (erase_length (queries s) (current_query s) Hlt) as Hlen.
    destruct s. cbn in *. lia.
  - apply parse_ack_kept. exact H.
Qed.

Lemma session_kept_serial (ser : DaikinSerial) (s s' : DaikinS21) :
  session_kept (set_serial ser s) s' -> session_kept s s'.
Proof. intros H. exact H. Qed.

Lemma loop_kept (now : Z) (s s' : DaikinS21) :
  loop now s = Some s' -> session_kept s s'.
Proof.
  intros H. unfold loop in H.
  destruct (service now (serial s)) as [[result ser]|]; [|discriminate].
  cbn [bind fst snd] in H. apply (session_kept_serial ser).
  destruct result.
  - injection H as <-. unfold session_kept. auto.
  - apply (tx_next_kept now). exact H.
  - apply parse_ack_kept. exact H.
  - apply handle_nak_kept. exact H.
  - injection H as <-. unfold session_kept.
    repeat split; try reflexivity; try (intros _; apply Nat.le_refl).
  - injection H as <-. unfold session_kept. auto.
Qed.

Lemma step_kept (e : Event) (s s' : DaikinS21) :
  step e s = Some s' -> session_kept s s'.
Proof.
  intros H. destruct e; cbn [step] in H.
  - apply (loop_kept now). exact H.
  - injection H as <-. unfold session_kept. auto.
  - injection H as <-. unfold session_kept. auto.
  - injection H as <-. unfold session_kept. auto.
  - injection H as <-. unfold session_kept. auto.
Qed.

Lemma run_kept (es : list Event) :
  forall s s', run es s = Some s' -> session_kept s s'.
Proof.
  induction es as [|e es IH]; intros s s' H; cbn [run] in H.
  - injection H as <-. unfold session_kept. auto.
  - destruct (step e s) as [s1|] eqn:E; [|discriminate].
    cbn [bind] in H. apply step_kept in E. apply IH in H.
    destruct E as (E1 & E2 & E3), H as (H1 & H2 & H3).
    unfold session_kept. repeat split.
    + intros Hle. apply H1, E1, Hle.
    + rewrite H2. exact E2.
    + intros Hd. rewrite H3, E3; [reflexivity | exact Hd | rewrite E2; exact Hd].
Qed.

Lemma dispatch_full_payload (rcode : list Z) (p0 p1 p2 p3 : Z) (s : DaikinS21) :
  (1 <= S21_MAX_COMMAND_SIZE)%nat ->
  exists s', dispatch rcode [p0; p1; p2; p3] s = Some s'.
Proof.
  intros Hmax. unfold dispatch.
  rewrite rcode_at_0, rcode_at_1 by lia. cbn [bind nth_error length].
  unfold temp_bytes_to_c10, bytes_to_num. cbn [nth_error Nat.ltb Nat.leb bind].
  repeat match goal with
         | |- context [if ?c then _ else _] => destruct c
         end;
    cbn [bind]; eexists; reflexivity.
Qed.

Lemma dispatch_D (rcode : list Z) (s : DaikinS21) :
  (1 <= S21_MAX_COMMAND_SIZE)%nat ->
  nth 0 rcode 0 = ch "D" ->
  exists s', dispatch rcode [] s = Some s'.
Proof.
  intros Hmax H0. unfold dispatch.
  rewrite rcode_at_0, rcode_at_1 by lia. cbn [bind]. rewrite H0.
  change (ch "D" =? ch "G") with false. change (ch "D" =? ch "S") with false.
  change (ch "D" =? ch "M") with false. change (ch "D" =? ch "D") with true.
  cbv iota. eexists. reflexivity.
Qed.

(** X14.  [parse_ack] decodes and does not schedule.  It has a result for
    every reply made of the code of a command that fits [rcode] with its
    terminator and four payload bytes, while the cursor is inside the pool,
    and for the bare acknowledgment of every command that begins with ['D']
    and fills [rcode] at most; [rcode[1]] exists, that is
    [S21_MAX_COMMAND_SIZE] is at least 1.  Every result it has leaves the
    link, the pool, the command last sent and the pending settings as they
    were, with the cursor moved by exactly one on a data reply and not at
    all on a bare acknowledgment. *)
Theorem parse_ack_only_decodes (s : DaikinS21) :
  (forall s',
     parse_ack s = Some s' ->
     serial s' = serial s
     /\ queries s' = queries s
     /\ tx_command s' = tx_command s
     /\ pending s' = pending s
     /\ current_query s'
        = match response (serial s) with
          | [] => current_query s
          | _ :: _ => S (current_query s)
          end)
  /\ (forall code p0 p1 p2 p3,
        (1 <= S21_MAX_COMMAND_SIZE)%nat ->
        (strlen (tx_command s) <= S21_MAX_COMMAND_SIZE)%nat ->
        response (serial s) = code ++ [p0; p1; p2; p3] ->
        length code = strlen (tx_command s) ->
        (current_query s < length (queries s))%nat ->
        exists s', parse_ack s = Some s'
                   /\ current_query s' = S (current_query s))
  /\ ((1 <= S21_MAX_COMMAND_SIZE)%nat ->
      (strlen (tx_command s) <= S21_MAX_COMMAND_SIZE + 1)%nat ->
      response (serial s) = [] ->
      nth 0 (c_str (tx_command s)) 0 = ch "D" ->
      exists s', parse_ack s = Some s'
                 /\ current_query s' = current_query s).
Proof.
  assert (Hframe : forall s',
             parse_ack s = Some s' ->
             serial s' = serial s
             /\ queries s' = queries s
             /\ tx_command s' = tx_command s
             /\ pending s' = pending s
             /\ current_query s'
                = match response (serial s) with
                  | [] => current_query s
                  | _ :: _ => S (current_query s)
                  end).
  { intros s' H. apply parse_ack_scheduling in H.
    destruct H as (H1 & H2 & H3 & H4 & H5 & _). auto. }
  split; [exact Hframe|]. split.
  - intros code p0 p1 p2 p3 Hmax Hlen Hresp Hcode Hcq.
    destruct (dispatch_full_payload code p0 p1 p2 p3
                (set_current_query (S (current_query s)) s) Hmax) as (s' & Hd).
    assert (Hp : parse_ack s = Some s').
    { rewrite (parse_ack_reply s code [p0; p1; p2; p3]); try assumption.
      - lia.
      - destruct code; discriminate.
      - unfold S21_PAYLOAD_SIZE. cbn [length]. lia. }
    exists s'. split; [exact Hp|].
    destruct (Hframe s' Hp) as (_ & _ & _ & _ & Hc).
    rewrite Hresp in Hc. destruct code; exact Hc.
  - intros Hmax Hlen Hresp H0.
    destruct (dispatch_D (c_str (tx_command s)) s Hmax H0) as (s' & Hd).
    assert (Hp : parse_ack s = Some s').
    { rewrite parse_ack_bare by assumption. exact Hd. }
    exists s'. split; [exact Hp|].
    destruct (Hframe s' Hp) as (_ & _ & _ & _ & Hc).
    rewrite Hresp in Hc. exact Hc.
Qed.

(** X15.  The cursor never leaves the pool: if it is at most the length of
    the pool, it still is after any sequence of ticks, received bytes and
    requests of the host that the driver gets through. *)
Theorem cursor_stays_in_pool (es : list Event) (s s' : DaikinS21) :
  (current_query s <= length (queries s))%nat ->
  run es s = Some s' ->
  (current_query s' <= length (queries s'))%nat.
Proof.
  intros Hle H. apply run_kept in H. destruct H as (H & _). exact (H Hle).
Qed.

(** X16.  With [debug_protocol] off, no sequence of events changes the
    cache of last-seen payloads, and [debug_protocol] itself is never
    changed by the driver. *)
Theorem val_cache_needs_debug (es : list Event) (s s' : DaikinS21) :
  debug_protocol s = false ->
  run es s = Some s' ->
  val_cache s' = val_cache s /\ debug_protocol s' = false.
Proof.
  intros Hd H. apply run_kept in H. destruct H as (_ & H2 & H3).
  split; [exact (H3 Hd) | rewrite H2; exact Hd].
Qed.


(** ** Further properties of the driver as a whole *)

Lemma handle_rx_link (byte : Z) (s s' : DaikinSerial) (res : Result.t) :
  receiving (comm_state s) = true ->
  handle_rx byte s = Some (res, s') ->
  match res with
  | Result.Busy => receiving (comm_state s') = true
  | Result.Ack | Result.Nak | Result.Error => comm_state s' = CommState.Cooldown
  | Result.Idle | Result.Timeout => False
  end.
Proof.
  intros Hrecv H. destruct s as [st cl t resp tx rx].
  unfold handle_rx in H. serial_simpl_in H. cbn [comm_state] in Hrecv.
  destruct st; try discriminate Hrecv.
  - destruct (byte =? ACK); [|destruct (byte =? NAK)];
      injection H as <- <-; reflexivity.
  - destruct (byte =? ACK); [|destruct (byte =? NAK)];
      injection H as <- <-; reflexivity.
  - destruct (byte =? STX); [|destruct (byte =? ACK)];
      injection H as <- <-; reflexivity.
  - destruct (negb (byte =? ETX)).
    + destruct (_ <? _)%nat; injection H as <- <-; reflexivity.
    + destruct (pop_back resp) as [[body checksum]|]; [|discriminate H].
      destruct (checksum_ok _ checksum); injection H as <- <-; reflexivity.
Qed.

Lemma read_available_link (now : Z) (avail : list Z) :
  forall s s' res,
    receiving (comm_state s) = true ->
    read_available now avail s = Some (res, s') ->
    match res with
    | Result.Busy => receiving (comm_state s') = true
    | Result.Ack | Result.Nak | Result.Error => comm_state s' = CommState.Cooldown
    | Result.Idle | Result.Timeout => False
    end.
Proof.
  induction avail as [|b rest IH]; intros s s' res Hrecv H; cbn [read_available] in H.
  - injection H as <- <-. exact Hrecv.
  - destruct (handle_rx b (set_last_event_time now (set_rx_uart rest s)))
      as [[r s1]|] eqn:E; [|discriminate H].
    apply handle_rx_link in E; [|destruct s; exact Hrecv].
    destruct r; try (injection H as <- <-; exact E); try contradiction.
    eapply IH; [exact E | exact H].
Qed.

(** X17.  The result of [service] tells the state of the link: it is [Idle]
    after [Idle] and [Timeout], in [Cooldown] after [Ack], [Nak] and
    [Error], and not [Idle] after [Busy].  So [loop] calls [tx_next] only
    on an idle link, where [send_frame] does not answer [Busy]. *)
Theorem service_result_and_link (now : Z) (s s' : DaikinSerial) (res : Result.t) :
  service now s = Some (res, s') ->
  match res with
  | Result.Idle | Result.Timeout => comm_state s' = CommState.Idle
  | Result.Ack | Result.Nak | Result.Error => comm_state s' = CommState.Cooldown
  | Result.Busy => comm_state s' <> CommState.Idle
  end.
Proof.
  intros H. destruct s as [st cl t resp tx rx].
  unfold service in H. cbn [comm_state last_event_time cooldown_length rx_uart] in H.
  destruct st;
    try (destruct (_ <? _);
         [ injection H as <- <-; reflexivity
         | apply read_available_link in H; [|reflexivity];
           destruct res; try exact H; try contradiction;
           intros Hidle; rewrite Hidle in H; discriminate H ]).
  - injection H as <- <-. reflexivity.
  - destruct (_ <? _); injection H as <- <-; [reflexivity | discriminate].
Qed.

(** X18.  A query the unit answers with NAK is dropped from the pool: an
    idle tick sends the query at the cursor, and the tick that reads the
    NAK erases that entry, leaves the cursor index where it was and puts
    the link in the turnaround cooldown. *)
Theorem nak_on_query_prunes_it (t0 t1 : Z) (s : DaikinS21) (q : string) :
  comm_state (serial s) = CommState.Idle ->
  activate_climate s = false ->
  activate_swing_mode s = false ->
  nth_error (queries s) (current_query s) = Some q ->
  (strlen q <= S21_MAX_COMMAND_SIZE)%nat ->
  uint32 (t1 - t0) <= S21_RESPONSE_TIMEOUT ->
  exists s',
    run [Tick t0; Receive [NAK]; Tick t1] s = Some s'
    /\ emitted (serial s) (serial s') = wire_frame q None
    /\ queries s' = erase (current_query s) (queries s)
    /\ current_query s' = current_query s
    /\ comm_state (serial s') = CommState.Cooldown
    /\ cooldown_length (serial s') = S21_RESPONSE_TURNAROUND.
Proof.
  intros Hidle Hac Hsw Hq Hlen Ht1.
  assert (Hlt : (current_query s < length (queries s))%nat).
  { apply nth_error_Some. rewrite Hq. discriminate. }
  destruct s as [ser qs cq txc ac asw rf pe act ti to tc fr chz sva rh ra rg rdy dbg vc].
  cbn in Hidle, Hac, Hsw, Hq, Hlt. subst ac asw.
  eexists. split.
  { cbn [run step bind]. unfold loop at 1. s21_simpl.
    rewrite service_idle by assumption.
    cbn [bind fst snd]. unfold tx_next. s21_simpl.
    destruct (Nat.eqb_spec cq (length qs)) as [E|_]; [lia|].
    cbn [negb]. rewrite Hq. cbn [bind]. s21_simpl.
    rewrite send_frame_idle by assumption.
    cbn [snd bind]. s21_simpl. serial_simpl. cbn [app].
    unfold loop. s21_simpl.
    rewrite (service_reply_nak t1 _ []);
      [ | left; reflexivity | exact Ht1 | reflexivity ].
    cbn [bind fst snd]. s21_simpl.
    unfold handle_nak. s21_simpl. rewrite Hq. cbn [bind].
    rewrite String.eqb_refl. s21_simpl. reflexivity. }
  s21_simpl. serial_simpl.
  split; [unfold emitted; serial_simpl; apply skipn_length_app|].
  repeat split; reflexivity.
Qed.

Lemma refine_queries_pool (s1 s2 : DaikinS21) :
  support_Ra s1 = support_Ra s2 ->
  support_RH s1 = support_RH s2 ->
  queries s1 = queries s2 ->
  refine_queries s1 = set_queries (queries (refine_queries s2)) s1.
Proof.
  intros Ha Hh Hq. unfold refine_queries. rewrite Ha, Hh, Hq.
  destruct (support_Ra s2 && support_RH s2).
  - destruct (negb _); [reflexivity|].
    rewrite <- Hq. destruct s1; reflexivity.
  - rewrite <- Hq. destruct s1; reflexivity.
Qed.

(** X19.  After a protocol error the scan starts afresh: a byte that is
    neither [ACK] nor [NAK], read while the link waits for an
    acknowledgment, makes the driver drop both pending activations; once
    the error cooldown is over it prunes the pool and sends its first
    query, with the cursor on that entry. *)
Theorem error_restarts_scan (t0 t1 : Z) (s : DaikinS21) (b : Z) (q : string)
    (rest : list string) :
  awaiting_ack (serial s) ->
  rx_uart (serial s) = [] ->
  b <> ACK -> b <> NAK ->
  uint32 (t0 - last_event_time (serial s)) <= S21_RESPONSE_TIMEOUT ->
  S21_ERROR_TIMEOUT < uint32 (t1 - t0) ->
  queries (refine_queries s) = q :: rest ->
  (strlen q <= S21_MAX_COMMAND_SIZE)%nat ->
  exists s',
    run [Receive [b]; Tick t0; Tick t1] s = Some s'
    /\ activate_climate s' = false
    /\ activate_swing_mode s' = false
    /\ refresh_state s' = false
    /\ queries s' = q :: rest
    /\ current_query s' = 0%nat
    /\ tx_command s' = q
    /\ emitted (serial s) (serial s') = wire_frame q None.
Proof.
  intros Hst Hrx Hack Hnak Ht0 Ht1 Hpool Hlen.
  destruct s as [ser qs cq txc ac asw rf pe act ti to tc fr chz sva rh ra rg rdy dbg vc].
  destruct ser as [st cl t resp tx rx].
  unfold awaiting_ack in Hst. cbn in Hst, Hrx, Ht0. subst rx.
  eexists. split.
  { cbn [run step bind]. s21_simpl. serial_simpl. cbn [app].
    unfold loop at 1. s21_simpl.
    rewrite (service_reply_garbage t0 _ b []);
      [ | exact Hst | exact Ht0 | reflexivity | exact Hack | exact Hnak ].
    cbn [bind fst snd]. s21_simpl. serial_simpl.
    unfold loop. s21_simpl.
    rewrite service_cooldown_over; [ | reflexivity | exact Ht1 ].
    cbn [bind fst snd]. unfold tx_next. s21_simpl.
    rewrite Nat.eqb_refl. cbn [negb].
    match type of Hpool with
    | queries (refine_queries ?x) = _ =>
        match goal with
        | |- context [refine_queries ?y] =>
            rewrite (refine_queries_pool y x eq_refl eq_refl eq_refl), Hpool
        end
    end.
    s21_simpl. cbn [nth_error bind]. s21_simpl.
    rewrite send_frame_idle by (reflexivity || assumption).
    cbn [snd]. reflexivity. }
  s21_simpl. serial_simpl.
  repeat split; try reflexivity.
  unfold emitted. serial_simpl. apply skipn_length_app.
Qed.

(** X20.  The transport accepts replies of up to
    [S21_MAX_COMMAND_SIZE + S21_PAYLOAD_SIZE] bytes, but [parse_ack] copies
    all bytes after the response code into an array of [S21_PAYLOAD_SIZE]:
    a validated reply that carries more than [S21_PAYLOAD_SIZE] bytes after
    the code of a query shorter than [S21_MAX_COMMAND_SIZE] is written
    past the end of that array. *)
Theorem long_reply_overruns_payload (t0 t1 : Z) (s : DaikinS21) (q : string)
    (body : list Z) (checksum : Z) :
  comm_state (serial s) = CommState.Idle ->
  activate_climate s = false ->
  activate_swing_mode s = false ->
  nth_error (queries s) (current_query s) = Some q ->
  uint32 (t1 - t0) <= S21_RESPONSE_TIMEOUT ->
  (strlen q + S21_PAYLOAD_SIZE < length body)%nat ->
  (length body <= S21_MAX_COMMAND_SIZE + S21_PAYLOAD_SIZE)%nat ->
  ~ In ETX body ->
  checksum <> ETX ->
  checksum_ok (sum8 body) checksum = true ->
  run [Tick t0; Receive (ACK :: STX :: body ++ [checksum; ETX]); Tick t1] s = None.
Proof.
  intros Hidle Hac Hsw Hq Ht1 Hlong Hfit Hetx Hck Hok.
  assert (Hlt : (current_query s < length (queries s))%nat).
  { apply nth_error_Some. rewrite Hq. discriminate. }
  destruct s as [ser qs cq txc ac asw rf pe act ti to tc fr chz sva rh ra rg rdy dbg vc].
  cbn in Hidle, Hac, Hsw, Hq, Hlt. subst ac asw.
  cbn [run step bind]. unfold loop at 1. s21_simpl.
  rewrite service_idle by assumption.
  cbn [bind fst snd]. unfold tx_next. s21_simpl.
  destruct (Nat.eqb_spec cq (length qs)) as [E|_]; [lia|].
  cbn [negb]. rewrite Hq. cbn [bind]. s21_simpl.
  rewrite send_frame_idle by (assumption || (unfold S21_PAYLOAD_SIZE in *; lia)).
  cbn [snd bind]. s21_simpl. serial_simpl. cbn [app].
  unfold loop. s21_simpl.
  rewrite (service_query_reply t1 _ body checksum);
    [ | reflexivity | exact Ht1 | reflexivity | reflexivity
      | exact Hetx | exact Hck | exact Hfit | exact Hok ].
  cbn [bind fst snd]. s21_simpl.
  unfold parse_ack. s21_simpl. serial_simpl.
  destruct (Nat.ltb_spec (S21_MAX_COMMAND_SIZE + 1) (strlen q));
    [unfold S21_PAYLOAD_SIZE in *; lia|].
  destruct body as [|b0 body']; [cbn in Hlong; lia|].
  destruct (Nat.ltb_spec (length (b0 :: body')) (strlen q)); [lia|].
  rewrite length_skipn.
  destruct (Nat.ltb_spec S21_PAYLOAD_SIZE (length (b0 :: body') - strlen q));
    [reflexivity | lia].
Qed.


(** ** The renderings of the log *)

Lemma hex_digit_range (n : Z) : 0 <= n <= 15 -> 32 <= hex_digit n <= 127.
Proof.
  intros H. unfold hex_digit. change (ch "0") with 48. change (ch "A") with 65.
  destruct (n <? 10); lia.
Qed.

Lemma hex_digit_inj (n m : Z) :
  0 <= n <= 15 -> 0 <= m <= 15 -> hex_digit n = hex_digit m -> n = m.
Proof.
  intros Hn Hm. unfold hex_digit. change (ch "0") with 48. change (ch "A") with 65.
  destruct (Z.ltb_spec n 10); destruct (Z.ltb_spec m 10); lia.
Qed.

Lemma byte_nibbles (b : Z) : is_byte b -> 0 <= b / 16 <= 15 /\ 0 <= b mod 16 <= 15.
Proof.
  unfold is_byte. intros H. split.
  - split; [apply Z.div_pos; lia|].
    assert (b / 16 < 16) by (apply Z.div_lt_upper_bound; lia). lia.
  - pose proof (Z.mod_pos_bound b 16 ltac:(lia)). lia.
Qed.

Lemma sprintf_02X_inj (a b : Z) :
  is_byte a -> is_byte b -> sprintf_02X a = sprintf_02X b -> a = b.
Proof.
  intros Ha Hb H. unfold sprintf_02X in H. injection H as Hhi Hlo.
  destruct (byte_nibbles a Ha) as [Ha1 Ha2].
  destruct (byte_nibbles b Hb) as [Hb1 Hb2].
  apply hex_digit_inj in Hhi; [|assumption|assumption].
  apply hex_digit_inj in Hlo; [|assumption|assumption].
  rewrite (Z.div_mod a 16), (Z.div_mod b 16) by lia. rewrite Hhi, Hlo. reflexivity.
Qed.

Lemma hex_repr_from_inj (l1 : list Z) :
  forall i l2,
    Forall is_byte l1 -> Forall is_byte l2 ->
    hex_repr_from i l1 = hex_repr_from i l2 -> l1 = l2.
Proof.
  induction l1 as [|a l1 IH]; intros i l2 H1 H2 H.
  - destruct l2 as [|b l2]; [reflexivity|].
    cbn [hex_repr_from] in H. destruct (0 <? i)%nat; discriminate H.
  - destruct l2 as [|b l2].
    + cbn [hex_repr_from] in H. destruct (0 <? i)%nat; discriminate H.
    + inversion H1 as [|? ? Ha Hl1]; subst. inversion H2 as [|? ? Hb Hl2]; subst.
      cbn [hex_repr_from] in H.
      assert (Hab : sprintf_02X a = sprintf_02X b
                    /\ hex_repr_from (S i) l1 = hex_repr_from (S i) l2).
      { unfold sprintf_02X in *. destruct (0 <? i)%nat; cbn [app] in H;
          injection H as -> -> ->; split; reflexivity. }
      destruct Hab as [Hab Hrest].
      rewrite (sprintf_02X_inj a b Ha Hb Hab), (IH _ _ Hl1 Hl2 Hrest). reflexivity.
Qed.

Lemma hex_repr_from_length (l : list Z) :
  forall i, length (hex_repr_from i l)
            = (3 * length l - (if (0 <? i)%nat then 0 else 1))%nat.
Proof.
  induction l as [|b l IH]; intros i.
  - cbn. destruct (0 <? i)%nat; reflexivity.
  - cbn [hex_repr_from]. rewrite !length_app, IH.
    change (0 <? S i)%nat with true. cbn [length sprintf_02X].
    destruct (0 <? i)%nat; cbn [length]; lia.
Qed.

(** X21.  [hex_repr] renders [n] bytes in [3 n - 1] characters (none for
    no bytes), and the rendering tells the bytes: two byte sequences with
    the same rendering are equal. *)
Theorem hex_repr_faithful (l1 l2 : list Z) :
  Forall is_byte l1 -> Forall is_byte l2 ->
  length (hex_repr l1) = (3 * length l1 - 1)%nat
  /\ (hex_repr l1 = hex_repr l2 -> l1 = l2).
Proof.
  intros H1 H2. split.
  - unfold hex_repr. rewrite hex_repr_from_length. reflexivity.
  - apply hex_repr_from_inj; assumption.
Qed.

Lemma str_repr_byte_range (b : Z) :
  is_byte b -> Forall (fun c => 32 <= c <= 127) (str_repr_byte b).
Proof.
  intros Hb. unfold str_repr_byte, backslash, double_quote.
  repeat match goal with
         | |- context [if ?x =? ?y then _ else _] =>
             destruct (Z.eqb_spec x y);
             [repeat (apply Forall_cons || apply Forall_nil);
              cbv; split; discriminate|]
         end.
  destruct (byte_nibbles b Hb) as [Hhi Hlo].
  pose proof (hex_digit_range _ Hhi). pose proof (hex_digit_range _ Hlo).
  unfold is_byte in Hb.
  destruct (Z.ltb_spec b 32); destruct (Z.ltb_spec 127 b); cbn [orb app];
    unfold sprintf_02X; repeat (apply Forall_cons || apply Forall_nil);
    try (cbv; split; discriminate); lia.
Qed.

(** X22.  On bytes, [str_repr] produces only characters from 32 to 127:
    control characters and bytes above 127 are escaped.  A byte from 32 to
    127 other than the two quotes and the backslash is copied as it is, so
    a text made of such bytes is rendered unchanged. *)
Theorem str_repr_printable (bytes : list Z) :
  Forall is_byte bytes ->
  Forall (fun c => 32 <= c <= 127) (str_repr bytes)
  /\ (Forall (fun b => 32 <= b <= 127 /\ b <> 34 /\ b <> 39 /\ b <> 92) bytes ->
      str_repr bytes = bytes).
Proof.
  intros Hbytes. split.
  - induction Hbytes as [|b l Hb Hl IH]; cbn [str_repr]; [constructor|].
    apply Forall_app. split; [apply str_repr_byte_range; exact Hb | exact IH].
  - intros Hplain. clear Hbytes.
    induction Hplain as [|b l (Hr & H34 & H39 & H92) Hl IH]; [reflexivity|].
    cbn [str_repr]. rewrite IH. unfold str_repr_byte.
    repeat match goal with
           | |- context [if ?x =? ?y then _ else _] =>
               destruct (Z.eqb_spec x y); [lia|]
           end.
    destruct (Z.ltb_spec b 32); [lia|]. destruct (Z.ltb_spec 127 b); [lia|].
    reflexivity.
Qed.


End Driver.

(** * Closed instances

    The instances below fix the constants of s21.h at sample values:
    commands of at most two characters and 250 / 35 / 200 milliseconds for
    response timeout, turnaround and error cooldown.  Pending setpoints are
    whole degrees held as [Z], for which the rounding of [tx_next] is a
    multiplication by ten. *)

Definition whole_degrees (t : Z) : Z := 10 * t.

Definition idle_link : DaikinSerial := mkSerial CommState.Idle 0 0 [] [] [].

Definition query_link (rx : list Z) : DaikinSerial :=
  mkSerial CommState.QueryAck 0 0 [] [] rx.

(** A driver whose fields are all zero, false or empty, after [setup]. *)
Definition fresh : DaikinS21 Z :=
  setup Z
    (mkS21 Z idle_link [] 0%nat ""%string false false false
       (mkSettings false 0 0 0 false false) (mkSettings false 0 0 0 false false)
       0 0 0 0 0 0 false false false (mkReady false false false) false []).

Definition loop0 := loop 2 250 35 200 Z whole_degrees.
Definition run0 := run 2 250 35 200 Z whole_degrees.

(** The driver after it has sent [F1] with the reply [rx] waiting. *)
Definition awaiting_basic_state (rg : bool) (rx : list Z) : DaikinS21 Z :=
  set_serial Z (mkSerial CommState.QueryAck 0 0 [] (wire_frame "F1" None) rx)
    (set_tx_command Z "F1" (set_support_RG Z rg fresh)).

(** *** C7 *)

Lemma bytes_to_num_inverse_witness :
  -999 <= -42 <= 999 /\ bytes_to_num (num_to_bytes (ch "+") (-42)) 4 = Some (-42).
Proof.
  split; [lia|].
  apply bytes_to_num_inverse; [lia | vm_compute; discriminate].
Defined.

(** *** C3 *)

Lemma send_frame_spec_witness :
  send_frame 2 7 "F1" None (query_link []) = (Result.Busy, query_link [])
  /\ send_frame 2 7 "FU0F" None idle_link = (Result.Error, idle_link)
  /\ send_frame 2 7 "D5" (Some [ch "7"; ch "?"; ch "0"; ch "0"]) idle_link
     = (Result.Ack,
        mkSerial CommState.CommandAck 0 7 []
          ([STX] ++ c_str "D5" ++ [ch "7"; ch "?"; ch "0"; ch "0"]
                 ++ [frame_checksum (c_str "D5" ++ [ch "7"; ch "?"; ch "0"; ch "0"]); ETX])
          []).
Proof.
  split; [|split].
  - apply (proj1 (send_frame_spec 2 7 "F1" None (query_link []))).
    simpl. discriminate.
  - apply (proj1 (proj2 (send_frame_spec 2 7 "FU0F" None idle_link))).
    + reflexivity.
    + simpl. lia.
  - apply (proj2 (proj2 (send_frame_spec 2 7 "D5"
                           (Some [ch "7"; ch "?"; ch "0"; ch "0"]) idle_link))).
    + reflexivity.
    + simpl. lia.
Defined.

(** *** C2 *)

(** The property as the specification states it fails: a body whose 8-bit sum is [ENQ] itself,
    followed by the checksum byte [ENQ], is accepted although the sum is
    not [STX]. *)
Lemma checksum_escape_counterexample :
  let body := [ch "G"; ch "1"; 35; 35; 35; 36] in
  let r := mkSerial CommState.QueryEtx 0 0 (body ++ [ENQ]) [] [] in
  comm_state r = CommState.QueryEtx
  /\ response r = body ++ [ENQ]
  /\ accepts 2 35 200 r
  /\ sum8 body <> STX.
Proof.
  cbv zeta. split; [reflexivity|]. split; [reflexivity|]. split.
  - unfold accepts. eexists. vm_compute. reflexivity.
  - vm_compute. discriminate.
Qed.

Lemma checksum_escape_witness :
  let p := [35; 35; 35; 34] in
  let body := [ch "G"; ch "1"; 35; 35; 35; 33] in
  let r := mkSerial CommState.QueryEtx 0 0 (body ++ [ENQ]) [] [] in
  sum8 (c_str "F1" ++ p) = STX
  /\ emitted idle_link (snd (send_frame 2 0 "F1" (Some p) idle_link))
     = [STX] ++ c_str "F1" ++ p ++ [ENQ; ETX]
  /\ (accepts 2 35 200 r <-> sum8 body = STX \/ sum8 body = ENQ).
Proof.
  cbv zeta.
  destruct (checksum_escape 2 35 200 0 "F1" (Some [35; 35; 35; 34]) idle_link
              (mkSerial CommState.QueryEtx 0 0
                 ([ch "G"; ch "1"; 35; 35; 35; 33] ++ [ENQ]) [] [])
              [ch "G"; ch "1"; 35; 35; 35; 33]) as [Htx Hrx].
  split; [reflexivity|]. split.
  - apply Htx; [reflexivity | reflexivity | simpl; lia].
  - apply Hrx; reflexivity.
Defined.

(** *** C1 *)

(** The property as the specification states it fails: the command [F1] with the payload ["####"]
    has the 8-bit sum 3, so the checksum byte on the wire is [ETX]; the
    receiver takes it for the end of the frame and reports a checksum
    mismatch. *)
Lemma frame_roundtrip_counterexample :
  (strlen "F1" <= 2)%nat
  /\ length [35; 35; 35; 35] = S21_PAYLOAD_SIZE
  /\ read_available 2 35 200 0
       (ACK :: emitted idle_link
                 (snd (send_frame 2 0 "F1" (Some [35; 35; 35; 35]) idle_link)))
       (query_link [])
     = Some (Result.Error,
             mkSerial CommState.Cooldown 200 0 (c_str "F1" ++ [35; 35; 35]) [] [ETX])
  /\ ~ roundtrip 2 35 200 0 0 "F1" [35; 35; 35; 35] idle_link (query_link []).
Proof.
  split; [simpl; lia|]. split; [reflexivity|]. split; [vm_compute; reflexivity|].
  unfold roundtrip. intros [r' [H _]]. vm_compute in H. discriminate H.
Qed.

Lemma frame_roundtrip_witness :
  roundtrip 2 35 200 0 1 "D1" [ch "1"; ch "3"; ch "N"; ch "A"]
    idle_link (query_link []).
Proof.
  apply frame_roundtrip.
  - simpl. lia.
  - reflexivity.
  - vm_compute. intuition discriminate.
  - vm_compute. discriminate.
  - reflexivity.
  - reflexivity.
  - reflexivity.
Defined.

(** *** C4 *)

Lemma handle_nak_prunes_query_witness :
  let s := set_tx_command Z "F9" (set_current_query Z 2%nat fresh) in
  exists s',
    handle_nak 2 Z s = Some s'
    /\ queries Z s' = ["F1"; "F5"; "Rd"; "RH"; "RI"; "Ra"; "RL"; "RG"]%string
    /\ ~ In "F9"%string (queries Z s')
    /\ (length (queries Z s') + 1 = length (queries Z s))%nat
    /\ nth_error (queries Z s') (current_query Z s') = Some "Rd"%string.
Proof.
  cbv zeta.
  destruct (handle_nak_prunes_query 2 Z
              (set_tx_command Z "F9" (set_current_query Z 2%nat fresh)) "F9")
    as (s' & Hnak & Hout & Hlen & Hnext & _).
  - simpl. repeat (constructor; [simpl; intuition discriminate|]). constructor.
  - reflexivity.
  - reflexivity.
  - exists s'. split; [exact Hnak|].
    vm_compute in Hnak. injection Hnak as <-.
    split; [reflexivity|]. split; [exact Hout|]. split; [exact Hlen|].
    exact Hnext.
Defined.

(** *** C6 *)

Lemma loop_error_timeout_witness :
  let s_err := set_serial Z (query_link [0]) (set_activate_climate Z true fresh) in
  let s_out := set_serial Z (query_link []) (set_activate_climate Z true fresh) in
  loop0 0 s_err
  = Some (set_activate_climate Z false
            (set_refresh_state Z true
               (set_current_query Z 9%nat
                  (set_serial Z (mkSerial CommState.Cooldown 200 0 [] [] []) s_err))))
  /\ loop0 251 s_out
     = Some (set_serial Z (mkSerial CommState.Idle 0 0 [] [] []) s_out).
Proof.
  cbv zeta. split.
  - apply (proj1 (loop_error_timeout 2 250 35 200 Z whole_degrees 0
                    (set_serial Z (query_link [0]) (set_activate_climate Z true fresh))
                    (mkSerial CommState.Cooldown 200 0 [] [] []))).
    vm_compute. reflexivity.
  - apply (proj2 (loop_error_timeout 2 250 35 200 Z whole_degrees 251
                    (set_serial Z (query_link []) (set_activate_climate Z true fresh))
                    (mkSerial CommState.Idle 0 0 [] [] []))).
    vm_compute. reflexivity.
Defined.

(** *** C5 *)

Lemma climate_command_preempts_scan_witness :
  let s := set_serial Z (mkSerial CommState.Cooldown 35 0 [] [] [])
             (set_daikin_climate_settings Z true (ch "3") 25 (ch "A")
                (set_current_query Z 1%nat fresh)) in
  exists s1 s2 s3,
    loop0 36 s = Some s1
    /\ emitted (serial Z s) (serial Z s1)
       = [STX; ch "D"; ch "1"; ch "1"; ch "3"; ch "N"; ch "A"; 104; ETX]
    /\ run0 [Receive Z [ACK]; Tick Z 37] s1 = Some s2
    /\ activate_climate Z s2 = false
    /\ current_query Z s2 = 1%nat
    /\ loop0 73 s2 = Some s3
    /\ emitted (serial Z s2) (serial Z s3) = wire_frame "F5" None
    /\ current_query Z s3 = 1%nat.
Proof.
  cbv zeta.
  destruct (climate_command_preempts_scan 2 250 35 200 Z whole_degrees 36 37 73
              (set_serial Z (mkSerial CommState.Cooldown 35 0 [] [] [])
                 (set_daikin_climate_settings Z true (ch "3") 25 (ch "A")
                    (set_current_query Z 1%nat fresh)))
              (mkSerial CommState.Idle 35 0 [] [] []) "F5")
    as (s1 & s2 & H1 & _ & Hd1 & _ & _ & H2 & Hac & _ & Hcq & Hresume).
  - lia.
  - vm_compute. reflexivity.
  - reflexivity.
  - reflexivity.
  - vm_compute. discriminate.
  - pose proof H1 as H1'. vm_compute in H1'. injection H1' as Hs1. subst s1.
    pose proof H2 as H2'. vm_compute in H2'. injection H2' as Hs2. subst s2.
    edestruct Hresume as (s3 & H3 & _ & Hq & Hcq3).
    + reflexivity.
    + simpl. lia.
    + reflexivity.
    + eexists. eexists. exists s3.
      split; [exact H1|]. split; [exact Hd1|]. split; [exact H2|].
      split; [exact Hac|]. split; [exact Hcq|]. split; [exact H3|].
      split; [exact Hq | exact Hcq3].
Defined.

(** *** C8 *)

(** The property as the specification states it fails: parsed after the query [F1], a response
    whose code is ['F' '1'] is acknowledged on the wire but matches no case
    of the decoder, and [active] keeps the values it had. *)
Lemma basic_state_scenario_counterexample :
  exists s',
    run0 [Tick Z 0; Receive Z (basic_state_reply (ch "F")); Tick Z 1] fresh = Some s'
    /\ emitted (serial Z fresh) (serial Z s') = wire_frame "F1" None ++ [ACK]
    /\ response (serial Z s') = basic_state_body (ch "F")
    /\ active Z s' = active Z fresh
    /\ power_on (active Z s') <> true.
Proof.
  eexists. split; [vm_compute; reflexivity|].
  split; [vm_compute; reflexivity|]. split; [vm_compute; reflexivity|].
  split; [vm_compute; reflexivity|]. vm_compute. discriminate.
Qed.

Lemma basic_state_scenario_witness :
  exists s',
    run0 [Tick Z 0; Receive Z (basic_state_reply (ch "G")); Tick Z 1] fresh = Some s'
    /\ power_on (active Z s') = true
    /\ mode (active Z s') = ch "A"
    /\ setpoint (active Z s') = 100
    /\ fan (active Z s') = ch "3".
Proof.
  destruct (basic_state_scenario 2 250 35 200 Z whole_degrees 0 1 fresh)
    as (s' & Hrun & _ & _ & Hpower & Hmode & Hset & Hfan & _).
  - lia.
  - reflexivity.
  - reflexivity.
  - reflexivity.
  - reflexivity.
  - vm_compute. discriminate.
  - exists s'. split; [exact Hrun|]. split; [exact Hpower|].
    split; [exact Hmode|]. split; [exact Hset|]. apply Hfan. reflexivity.
Defined.

(** *** C9 *)

(** The reply of the unit to the fan-state query [RG]: fan mode ['B']. *)
Definition fan_state_body : list Z := [ch "S"; ch "G"; ch "B"; ch "0"; ch "0"; ch "0"].

Definition fan_state_reply : list Z :=
  [ACK; STX] ++ fan_state_body ++ [frame_checksum fan_state_body; ETX].

(** The driver after it has sent [RG], the last query of the pool, with
    the reply [rx] waiting. *)
Definition awaiting_fan_state (rx : list Z) : DaikinS21 Z :=
  set_serial Z (mkSerial CommState.QueryAck 0 0 [] (wire_frame "RG" None) rx)
    (set_tx_command Z "RG" (set_current_query Z 8%nat fresh)).

Lemma basic_state_fan_gated_by_RG_witness :
  (exists s0 s s',
     loop0 1 (awaiting_fan_state fan_state_reply) = Some s0
     /\ support_RG Z s0 = true
     /\ fan (active Z s0) = ch "B"
     /\ run0 [Update Z; Tick Z 37; Receive Z (basic_state_reply (ch "G"))] s0 = Some s
     /\ loop0 38 s = Some s'
     /\ fan (active Z s') = ch "B")
  /\ (exists s',
        loop0 1 (awaiting_basic_state false (basic_state_reply (ch "G"))) = Some s'
        /\ fan (active Z s') = ch "3").
Proof.
  unfold loop0, run0. split.
  - destruct (proj1 (basic_state_fan_gated_by_RG 2 250 35 200 Z whole_degrees)
                1 (awaiting_fan_state fan_state_reply)
                (mkSerial CommState.Cooldown 35 1 fan_state_body
                   (wire_frame "RG" None ++ [ACK]) [])
                (c_str "SG") (ch "B") [ch "0"; ch "0"; ch "0"])
      as (s0 & Hloop & Hrg & Hfan & Hlater).
    + vm_compute. reflexivity.
    + reflexivity.
    + reflexivity.
    + reflexivity.
    + reflexivity.
    + simpl. lia.
    + unfold S21_PAYLOAD_SIZE. simpl. lia.
    + simpl. lia.
    + pose proof Hloop as Hs0. vm_compute in Hs0. injection Hs0 as Hs0. subst s0.
      match type of Hloop with
      | _ = Some ?x =>
          exists x;
          destruct (run 2 250 35 200 Z whole_degrees
                      [Update Z; Tick Z 37; Receive Z (basic_state_reply (ch "G"))] x)
            as [s|] eqn:Erun
      end.
      * pose proof Erun as Hs. vm_compute in Hs. injection Hs as Hs. subst s.
        destruct (Hlater _ _ 38
                    (mkSerial CommState.Cooldown 35 38 (basic_state_body (ch "G"))
                       (wire_frame "RG" None ++ [ACK] ++ wire_frame "F1" None ++ [ACK])
                       [])
                    (c_str "G1") [ch "1"; ch "A"; ch "0"; ch "3"] Erun)
          as [Hkeep Hsome];
          [vm_compute; reflexivity | reflexivity | reflexivity | reflexivity
           | reflexivity |].
        destruct Hsome as (s' & Hs');
          [simpl; lia | unfold S21_PAYLOAD_SIZE; simpl; lia | simpl; lia |].
        destruct (Hkeep s' Hs') as [Hf _].
        eexists. exists s'.
        split; [exact Hloop|]. split; [exact Hrg|]. split; [exact Hfan|].
        split; [exact Erun|]. split; [exact Hs'|].
        rewrite Hf. reflexivity.
      * exfalso. vm_compute in Erun. discriminate Erun.
  - destruct (proj2 (basic_state_fan_gated_by_RG 2 250 35 200 Z whole_degrees)
                1 (awaiting_basic_state false (basic_state_reply (ch "G")))
                (mkSerial CommState.Cooldown 35 1 (basic_state_body (ch "G"))
                   (wire_frame "F1" None ++ [ACK]) [])
                (c_str "G1") (ch "1") (ch "A") (ch "0") (ch "3"))
      as (s' & Hloop & Hset & _).
    + reflexivity.
    + vm_compute. reflexivity.
    + reflexivity.
    + reflexivity.
    + reflexivity.
    + reflexivity.
    + simpl. lia.
    + simpl. lia.
    + exists s'. split; [exact Hloop | exact Hset].
Defined.

(** *** C10 *)

Lemma handle_nak_reads_cursor_witness :
  exists s,
    run0 [Tick Z 0; Receive Z [0]; Tick Z 0;
          SetClimate Z true (ch "3") 25 (ch "A"); Tick Z 201;
          Receive Z [NAK]] fresh = Some s
    /\ tx_command Z s = "D1"%string
    /\ comm_state (serial Z s) = CommState.CommandAck
    /\ rx_uart (serial Z s) = [NAK]
    /\ current_query Z s = length (queries Z s)
    /\ loop0 201 s = None.
Proof.
  apply (proj2 (proj2 (handle_nak_reads_cursor 2 250 35 200 Z whole_degrees
                         0 201 fresh true (ch "3") 25 (ch "A")
                         ltac:(lia) ltac:(reflexivity) ltac:(lia)
                         ltac:(vm_compute; reflexivity)))).
Defined.

(** ** Instances of the further properties *)

Lemma setpoint_byte_decodes_witness :
  28 <= c10_to_setpoint_byte 250 <= 255
  /\ (c10_to_setpoint_byte 250 - 28) * 5 = 250.
Proof.
  destruct (setpoint_byte_decodes 250 ltac:(lia)) as (Hbyte & _ & _ & Hexact).
  split; [exact Hbyte | apply Hexact; reflexivity].
Defined.

Lemma temp_f9_ignores_low_bit_witness :
  temp_f9_byte_to_c10 150 = 110 /\ temp_f9_byte_to_c10 151 = 110.
Proof. exact (temp_f9_ignores_low_bit 75 ltac:(lia)). Defined.

Lemma bytes_to_num_exact_witness :
  bytes_to_num [ch "5"; ch "2"; ch "1"; ch "-"] 4 = Some (-125)
  /\ bytes_to_num [ch "5"; ch "2"; ch "1"] 3 = Some 125.
Proof.
  split.
  - exact (proj1 (bytes_to_num_exact (ch "5") (ch "2") (ch "1") (ch "-") 4
                    ltac:(vm_compute; split; discriminate)
                    ltac:(vm_compute; split; discriminate)
                    ltac:(vm_compute; split; discriminate))).
  - apply (proj2 (bytes_to_num_exact (ch "5") (ch "2") (ch "1") 0 3
                    ltac:(vm_compute; split; discriminate)
                    ltac:(vm_compute; split; discriminate)
                    ltac:(vm_compute; split; discriminate))).
    lia.
Defined.

Lemma handle_rx_outcome_witness :
  let body := basic_state_body (ch "G") in
  let s := mkSerial CommState.QueryEtx 0 0 (body ++ [frame_checksum body]) [9] [] in
  let s' := mkSerial CommState.Cooldown 35 0 body [9; ACK] [] in
  handle_rx 2 35 200 ETX s = Some (Result.Ack, s')
  /\ comm_state s' = CommState.Cooldown
  /\ cooldown_length s' = 35
  /\ tx_uart s' = tx_uart s ++ [ACK].
Proof.
  cbv zeta. split; [vm_compute; reflexivity|].
  destruct (handle_rx_outcome 2 35 200 ETX
              (mkSerial CommState.QueryEtx 0 0
                 (basic_state_body (ch "G")
                    ++ [frame_checksum (basic_state_body (ch "G"))]) [9] [])
              (mkSerial CommState.Cooldown 35 0 (basic_state_body (ch "G")) [9; ACK] [])
              Result.Ack)
    as ((Hst & Hcl) & _ & _ & Htx).
  - reflexivity.
  - vm_compute. reflexivity.
  - split; [exact Hst|]. split; [exact Hcl | exact Htx].
Defined.

Lemma response_stays_in_bounds_witness :
  let s := query_link (basic_state_reply (ch "G")) in
  let s' := mkSerial CommState.Cooldown 35 1 (basic_state_body (ch "G")) [ACK] [] in
  service 2 250 35 200 1 s = Some (Result.Ack, s')
  /\ response_in_bounds 2 s'
  /\ (length (response s') <= 2 + S21_PAYLOAD_SIZE)%nat.
Proof.
  cbv zeta. split; [vm_compute; reflexivity|].
  destruct (proj2 (response_stays_in_bounds 2 250 35 200 1
                     (query_link (basic_state_reply (ch "G"))) eq_refl)
              Result.Ack
              (mkSerial CommState.Cooldown 35 1 (basic_state_body (ch "G")) [ACK] []))
    as [Hin Hlen].
  - vm_compute. reflexivity.
  - split; [exact Hin | apply Hlen; reflexivity].
Defined.

Lemma timers_survive_rollover_witness :
  let cooling := mkSerial CommState.Cooldown 35 4294967290 [] [] [] in
  let waiting := mkSerial CommState.QueryAck 0 4294967290 [] [] [] in
  service 2 250 35 200 30 cooling
  = Some (Result.Idle, set_comm_state CommState.Idle cooling)
  /\ service 2 250 35 200 245 waiting
     = Some (Result.Timeout, set_comm_state CommState.Idle waiting).
Proof.
  cbv zeta. split.
  - exact (proj1 (timers_survive_rollover 2 250 35 200
                    (mkSerial CommState.Cooldown 35 4294967290 [] [] []) 36
                    ltac:(lia)) eq_refl).
  - exact (proj2 (timers_survive_rollover 2 250 35 200
                    (mkSerial CommState.QueryAck 0 4294967290 [] [] []) 251
                    ltac:(lia)) eq_refl ltac:(lia)).
Defined.

Lemma extra_acks_ignored_witness :
  let body := basic_state_body (ch "G") in
  read_available 2 35 200 1
    ([ACK; ACK] ++ STX :: body ++ [frame_checksum body; ETX])
    (mkSerial CommState.QueryStx 0 0 [] [] [])
  = Some (Result.Ack, mkSerial CommState.Cooldown 35 1 body [ACK] []).
Proof.
  cbv zeta.
  apply (extra_acks_ignored 2 35 200 1 2 (basic_state_body (ch "G"))
           (frame_checksum (basic_state_body (ch "G"))) 0 0 [] []).
  - vm_compute. intuition discriminate.
  - vm_compute. discriminate.
  - unfold S21_PAYLOAD_SIZE. simpl. lia.
  - vm_compute. reflexivity.
Defined.

Lemma corrupt_frame_rejected_witness :
  let body := basic_state_body (ch "G") in
  service 2 250 35 200 1 (query_link (ACK :: STX :: body ++ [78; ETX]))
  = Some (Result.Error, mkSerial CommState.Cooldown 200 1 body [] []).
Proof.
  cbv zeta.
  apply (corrupt_frame_rejected 2 250 35 200 1
           (query_link (ACK :: STX :: basic_state_body (ch "G") ++ [78; ETX]))
           (basic_state_body (ch "G")) 78).
  - reflexivity.
  - vm_compute. discriminate.
  - reflexivity.
  - reflexivity.
  - vm_compute. intuition discriminate.
  - vm_compute. discriminate.
  - unfold S21_PAYLOAD_SIZE. simpl. lia.
  - vm_compute. reflexivity.
Defined.

Lemma refine_queries_drops_F9_witness :
  refine_queries Z fresh = fresh
  /\ queries Z (refine_queries Z (set_support_RH Z true (set_support_Ra Z true fresh)))
     = ["F1"; "F5"; "Rd"; "RH"; "RI"; "Ra"; "RL"; "RG"]%string.
Proof.
  split.
  - apply (proj1 (refine_queries_drops_F9 Z fresh)). reflexivity.
  - rewrite (proj2 (refine_queries_drops_F9 Z
                      (set_support_RH Z true (set_support_Ra Z true fresh)))).
    + reflexivity.
    + reflexivity.
    + simpl. repeat (constructor; [simpl; intuition discriminate|]). constructor.
Defined.

(** One round of polling in which the unit answers NAK. *)
Definition nak_round (t : Z) : list (Event Z) :=
  [Tick Z t; Receive Z [NAK]; Tick Z t].

(** The unit rejects all nine queries, and the host then asks for a
    refresh. *)
Definition all_queries_rejected : list (Event Z) :=
  flat_map nak_round [0; 36; 72; 108; 144; 180; 216; 252; 288]
    ++ [Tick Z 324; Update Z].

Lemma fresh_scan_on_empty_pool_witness :
  exists s,
    run0 all_queries_rejected fresh = Some s
    /\ queries Z s = []
    /\ loop0 325 s = None.
Proof.
  eexists. split; [vm_compute; reflexivity|]. split; [reflexivity|].
  apply fresh_scan_on_empty_pool; try reflexivity. left. reflexivity.
Defined.

Lemma climate_payload_decodes_witness :
  let p := mkSettings true (ch "3") 25 (ch "A") false false in
  exists s',
    dispatch 2 Z (c_str "G1") (climate_payload Z whole_degrees p) fresh = Some s'
    /\ power_on (active Z s') = true
    /\ mode (active Z s') = ch "3"
    /\ fan (active Z s') = ch "A"
    /\ setpoint (active Z s') = 250.
Proof.
  cbv zeta.
  destruct (climate_payload_decodes 2 Z whole_degrees
              (mkSettings true (ch "3") 25 (ch "A") false false) (c_str "G1") fresh)
    as (s' & Hd & Hp & Hm & Hf & Hs & _).
  - lia.
  - reflexivity.
  - reflexivity.
  - vm_compute. split; discriminate.
  - vm_compute. split; discriminate.
  - vm_compute. split; discriminate.
  - reflexivity.
  - exists s'. split; [exact Hd|]. split; [exact Hp|]. split; [exact Hm|].
    split; [exact Hf | exact Hs].
Defined.

Lemma swing_payload_decodes_witness :
  let p := mkSettings false 0 0 0 true false in
  exists s',
    dispatch 2 Z (c_str "G5") (swing_payload Z p) fresh = Some s'
    /\ swing_v (active Z s') = true
    /\ swing_h (active Z s') = false.
Proof.
  cbv zeta.
  destruct (swing_payload_decodes 2 Z (mkSettings false 0 0 0 true false)
              (c_str "G5") fresh)
    as (s' & Hd & Hv & Hh & _).
  - lia.
  - reflexivity.
  - reflexivity.
  - exists s'. split; [exact Hd|]. split; [exact Hv | exact Hh].
Defined.

Lemma nak_on_command_drops_it_witness :
  let s1 := set_tx_command Z "D1" (set_activate_climate Z true fresh) in
  let s5 := set_tx_command Z "D5" (set_activate_swing_mode Z true fresh) in
  handle_nak 2 Z s1
  = Some (set_refresh_state Z true (set_activate_climate Z false s1))
  /\ handle_nak 2 Z s5
     = Some (set_refresh_state Z true (set_activate_swing_mode Z false s5)).
Proof.
  cbv zeta. split.
  - apply (proj1 (nak_on_command_drops_it 2 Z
                    (set_tx_command Z "D1" (set_activate_climate Z true fresh)) "F1"
                    ltac:(lia) eq_refl ltac:(discriminate) ltac:(discriminate)
                    eq_refl)).
    reflexivity.
  - apply (proj2 (nak_on_command_drops_it 2 Z
                    (set_tx_command Z "D5" (set_activate_swing_mode Z true fresh)) "F1"
                    ltac:(lia) eq_refl ltac:(discriminate) ltac:(discriminate)
                    eq_refl)).
    reflexivity.
Defined.

(** The driver holding the validated reply to [F1], before it is parsed. *)
Definition basic_state_received : DaikinS21 Z :=
  set_serial Z (mkSerial CommState.Cooldown 35 1 (basic_state_body (ch "G")) [] [])
    (set_tx_command Z "F1" fresh).

(** The driver after the unit has acknowledged the three-character
    command ["D1x"], which fills [rcode] when [S21_MAX_COMMAND_SIZE] is 2. *)
Definition long_command_acknowledged : DaikinS21 Z :=
  set_serial Z (mkSerial CommState.Cooldown 35 1 [] [] [])
    (set_activate_climate Z true (set_tx_command Z "D1x" fresh)).

Lemma parse_ack_only_decodes_witness :
  (exists s',
     parse_ack 2 Z basic_state_received = Some s'
     /\ queries Z s' = queries Z basic_state_received
     /\ pending Z s' = pending Z basic_state_received
     /\ current_query Z s' = 1%nat)
  /\ (exists s',
        parse_ack 2 Z long_command_acknowledged = Some s'
        /\ activate_climate Z s' = false
        /\ current_query Z s' = 0%nat).
Proof.
  split.
  - destruct (proj1 (proj2 (parse_ack_only_decodes 2 Z basic_state_received))
                (c_str "G1") (ch "1") (ch "A") (ch "0") (ch "3")
                ltac:(lia) ltac:(simpl; lia) eq_refl eq_refl ltac:(simpl; lia))
      as (s' & Hp & Hc).
    destruct (proj1 (parse_ack_only_decodes 2 Z basic_state_received) s' Hp)
      as (_ & Hq & _ & Hpend & _).
    exists s'. split; [exact Hp|]. split; [exact Hq|].
    split; [exact Hpend | exact Hc].
  - destruct (proj2 (proj2 (parse_ack_only_decodes 2 Z long_command_acknowledged))
                ltac:(lia) ltac:(simpl; lia) eq_refl eq_refl)
      as (s' & Hp & Hc).
    exists s'. split; [exact Hp|]. split; [|exact Hc].
    pose proof Hp as Hs. vm_compute in Hs. injection Hs as Hs. subst s'.
    reflexivity.
Defined.

Lemma cursor_stays_in_pool_witness :
  let s := set_current_query Z 8%nat fresh in
  exists s',
    run0 (nak_round 0) s = Some s'
    /\ (current_query Z s' <= length (queries Z s'))%nat.
Proof.
  cbv zeta. unfold run0.
  destruct (run 2 250 35 200 Z whole_degrees (nak_round 0)
              (set_current_query Z 8%nat fresh)) as [s'|] eqn:E;
    [|vm_compute in E; discriminate E].
  exists s'. split; [reflexivity|].
  apply (cursor_stays_in_pool 2 250 35 200 Z whole_degrees (nak_round 0)
           (set_current_query Z 8%nat fresh) s').
  - unfold S21_PAYLOAD_SIZE. simpl. lia.
  - exact E.
Defined.

Lemma val_cache_needs_debug_witness :
  exists s',
    run0 [Tick Z 0; Receive Z (basic_state_reply (ch "F")); Tick Z 1] fresh = Some s'
    /\ val_cache Z s' = []
    /\ debug_protocol Z s' = false.
Proof.
  unfold run0.
  destruct (run 2 250 35 200 Z whole_degrees
              [Tick Z 0; Receive Z (basic_state_reply (ch "F")); Tick Z 1] fresh)
    as [s'|] eqn:E; [|vm_compute in E; discriminate E].
  exists s'. split; [reflexivity|].
  exact (val_cache_needs_debug 2 250 35 200 Z whole_degrees _ fresh s' eq_refl E).
Defined.

Lemma service_result_and_link_witness :
  let s' := mkSerial CommState.Cooldown 35 1 [] [] [] in
  service 2 250 35 200 1 (query_link [NAK]) = Some (Result.Nak, s')
  /\ comm_state s' = CommState.Cooldown.
Proof.
  cbv zeta. split; [vm_compute; reflexivity|].
  exact (service_result_and_link 2 250 35 200 1 (query_link [NAK])
           (mkSerial CommState.Cooldown 35 1 [] [] []) Result.Nak eq_refl).
Defined.

Lemma nak_on_query_prunes_it_witness :
  exists s',
    run0 [Tick Z 0; Receive Z [NAK]; Tick Z 1] fresh = Some s'
    /\ emitted (serial Z fresh) (serial Z s') = wire_frame "F1" None
    /\ queries Z s' = ["F5"; "F9"; "Rd"; "RH"; "RI"; "Ra"; "RL"; "RG"]%string
    /\ current_query Z s' = 0%nat.
Proof.
  destruct (nak_on_query_prunes_it 2 250 35 200 Z whole_degrees 0 1 fresh "F1")
    as (s' & Hrun & Htx & Hq & Hcq & _).
  - reflexivity.
  - reflexivity.
  - reflexivity.
  - reflexivity.
  - unfold S21_PAYLOAD_SIZE. simpl. lia.
  - vm_compute. discriminate.
  - exists s'. split; [exact Hrun|]. split; [exact Htx|].
    split; [exact Hq | exact Hcq].
Defined.

Lemma error_restarts_scan_witness :
  let s := set_activate_climate Z true
             (set_current_query Z 4%nat (awaiting_basic_state false [])) in
  exists s',
    run0 [Receive Z [0]; Tick Z 1; Tick Z 202] s = Some s'
    /\ activate_climate Z s' = false
    /\ current_query Z s' = 0%nat
    /\ tx_command Z s' = "F1"%string
    /\ emitted (serial Z s) (serial Z s') = wire_frame "F1" None.
Proof.
  cbv zeta.
  destruct (error_restarts_scan 2 250 35 200 Z whole_degrees 1 202
              (set_activate_climate Z true
                 (set_current_query Z 4%nat (awaiting_basic_state false [])))
              0 "F1" ["F5"; "F9"; "Rd"; "RH"; "RI"; "Ra"; "RL"; "RG"]%string)
    as (s' & Hrun & Hac & _ & _ & _ & Hcq & Htx & Hem).
  - left. reflexivity.
  - reflexivity.
  - discriminate.
  - discriminate.
  - vm_compute. discriminate.
  - vm_compute. reflexivity.
  - reflexivity.
  - unfold S21_PAYLOAD_SIZE. simpl. lia.
  - exists s'. split; [exact Hrun|]. split; [exact Hac|]. split; [exact Hcq|].
    split; [exact Htx | exact Hem].
Defined.

Lemma long_reply_overruns_payload_witness :
  let body := basic_state_body (ch "G") ++ [ch "0"] in
  run 4 250 35 200 Z whole_degrees
    [Tick Z 0; Receive Z (ACK :: STX :: body ++ [frame_checksum body; ETX]); Tick Z 1]
    fresh
  = None.
Proof.
  cbv zeta.
  apply (long_reply_overruns_payload 4 250 35 200 Z whole_degrees 0 1 fresh "F1"
           (basic_state_body (ch "G") ++ [ch "0"])
           (frame_checksum (basic_state_body (ch "G") ++ [ch "0"]))).
  - reflexivity.
  - reflexivity.
  - reflexivity.
  - reflexivity.
  - vm_compute. discriminate.
  - unfold S21_PAYLOAD_SIZE. simpl. lia.
  - unfold S21_PAYLOAD_SIZE. simpl. lia.
  - vm_compute. intuition discriminate.
  - vm_compute. discriminate.
  - vm_compute. reflexivity.
Defined.

Lemma hex_repr_faithful_witness :
  hex_repr [2; 255; 16] = c_str "02:FF:10"
  /\ length (hex_repr [2; 255; 16]) = 8%nat.
Proof.
  split; [reflexivity|].
  apply (proj1 (hex_repr_faithful [2; 255; 16] [2; 255; 16]
                  ltac:(repeat constructor; unfold is_byte; lia)
                  ltac:(repeat constructor; unfold is_byte; lia))).
Defined.

Lemma str_repr_printable_witness :
  Forall (fun c => 32 <= c <= 127) (str_repr [ACK; ch "F"; 10; 200])
  /\ str_repr (c_str "F1 ok") = c_str "F1 ok".
Proof.
  split.
  - apply (proj1 (str_repr_printable [ACK; ch "F"; 10; 200]
                    ltac:(repeat (apply Forall_cons;
                                  [vm_compute; split; discriminate|]);
                          apply Forall_nil))).
  - apply (proj2 (str_repr_printable (c_str "F1 ok")
                    ltac:(repeat (apply Forall_cons;
                                  [vm_compute; split; discriminate|]);
                          apply Forall_nil))).
    repeat (apply Forall_cons; [vm_compute; intuition discriminate|]).
    apply Forall_nil.
Defined.
